(** * OpenHeart: state distribution and validation layer

    A shallow embedding of the TypeScript sources

      - [src/plugin/state-reader.ts]  (fetch, Validator, default record)
      - [src/plugin/api.ts]           (mobile ingestion, Normalizer, status)
      - the simulate command of the CLI (simulated records)
      - [src/plugin/index.ts]         (precept derivation hook)
      - [src/cli/daemon.ts]           (status reader, stop, status display)

    followed by the properties of the specification, each proved or refuted
    on these definitions.

    Modelling conventions.
      - A JavaScript [number] holding a stress index or a confidence is an
        exact rational ([Qc], canonical fractions, Leibniz equality); decimal
        literals of the source are the rationals they denote.  [NaN] and the
        rounding of IEEE doubles are outside the model.
      - Timestamps (epoch milliseconds), [ttl_seconds] and process ids are
        integers ([Z]).
      - [Date.now()] is a parameter [now]; all readings of the clock inside
        one call are the same instant.
      - An exception is a value: fallible functions return [result].
      - The file system and the socket are an explicit environment [Env];
        [JSON.parse] is abstracted by the [payload] a file or a connection
        carries: a document that parses to a record, or text on which
        [JSON.parse] throws.  Values read back are taken at the declared type
        [BiometricState].
      - [JSON.parse ... as BiometricState] checks nothing: the modules
        [Untyped], [UntypedStatus] and [UntypedHook] run the same readers on
        documents of any shape ([null], or an object in which any of the
        seven properties may be missing), and [Request] runs the ingestion
        endpoint on a request that may have no body.  On complete records
        they agree with the typed readers ([untyped_fetch_of_env]).
      - [String.prototype.toUpperCase] and the property names that every
        object inherits from [Object.prototype] are parameters of the
        simulate command ([toUpperCase], [inherited]).
      - [console.*] logging has no effect on any result and is left out. *)

From Stdlib Require Import ZArith QArith Qcanon Qround.
From Stdlib Require Import String Ascii List Bool Lia Lqa.
Import ListNotations.

Open Scope string_scope.
Open Scope Z_scope.

(* ------------------------------------------------------------------ *)
(** ** Numbers *)

Module Num.

Definition num : Type := Qc.

(** A decimal literal of the source, e.g. [dec 0.65]. *)
Definition dec (q : Q) : num := Q2Qc q.

Definition ofZ (z : Z) : num := Q2Qc (inject_Z z).

(** [x <= y], [x < y], [x >= y], [x > y] of JavaScript, on rationals. *)
Definition leb (x y : num) : bool := Qle_bool x y.
Definition ltb (x y : num) : bool := negb (Qle_bool y x).
Definition geb (x y : num) : bool := leb y x.
Definition gtb (x y : num) : bool := ltb y x.

(** [Math.round]: nearest integer, halves toward plus infinity. *)
Definition Math_round (x : num) : Z := Qfloor (x + dec 0.5)%Qc.

(** [Math.round(x * 100) / 100]. *)
Definition round2 (x : num) : num :=
  (ofZ (Math_round (x * dec 100)%Qc) / dec 100)%Qc.

(** Truthiness of an optional number ([undefined] and [0] are falsy). *)
Definition truthy (o : option num) : bool :=
  match o with
  | Some x => negb (Qeq_bool x 0)
  | None => false
  end.

End Num.
Import Num.

(* ------------------------------------------------------------------ *)
(** ** Exceptions *)

Inductive result (A : Type) : Type :=
| Ok (a : A)
| Throw (message : string).
Arguments Ok {A} a.
Arguments Throw {A} message.

Definition bind {A B : Type} (r : result A) (k : A -> result B) : result B :=
  match r with
  | Ok a => k a
  | Throw m => Throw m
  end.

(** [try { body } catch (e) { handler }]. *)
Definition try_catch {A : Type} (body : result A) (handler : string -> result A)
  : result A :=
  match body with
  | Ok a => Ok a
  | Throw m => handler m
  end.

Declare Scope js_scope.
Notation "x <- c ;; k" := (bind c (fun x => k))
  (at level 61, c at next level, right associativity) : js_scope.
Notation "' p <- c ;; k" := (bind c (fun p => k))
  (at level 61, p pattern, c at next level, right associativity) : js_scope.
Open Scope js_scope.

(* ------------------------------------------------------------------ *)
(** ** The State Record and the environment *)

(** [interface BiometricState] of state-reader.ts. *)
Record BiometricState : Type := mkState {
  stress_index : num;
  flow_state : string;
  timestamp : Z;
  ttl_seconds : Z;
  daemon_pid : Z;
  confidence : num;
  source : string
}.

(** What [JSON.parse] makes of a text that holds a complete record, or of
    a text that is not JSON.  The cast [as BiometricState] is not checked by
    the code: documents that hold anything else ([null], an object with
    missing or non-numeric properties) are the subject of [Untyped] below,
    which embeds the same readers on them. *)
Inductive payload : Type :=
| Parsed (state : BiometricState)
| Unparsable.

(** What happens on a connection to the state socket: the ["end"] event
    after the data, the ["error"] event, or the ["timeout"] event. *)
Inductive connection : Type :=
| Ended (data : payload)
| Failed (message : string)
| TimedOut.

(** [~/.openheart]: the socket ([None]: the path does not exist), the state
    file ([None]: absent) and whether the directory can be written. *)
Record Env : Type := mkEnv {
  state_sock : option connection;
  state_file : option payload;
  writable : bool
}.

(* ------------------------------------------------------------------ *)
(** ** state-reader.ts *)

Module StateReader.

Definition MAX_STALENESS_MS : Z := 60000.

Definition getDefaultState (now : Z) : BiometricState :=
  {| stress_index := dec 0.0;
     flow_state := "UNKNOWN";
     timestamp := now;
     ttl_seconds := 0;
     daemon_pid := -1;
     confidence := dec 0.0;
     source := "default" |}.

Definition readFromSocket (env : Env) : result BiometricState :=
  match state_sock env with
  | None => Throw "Socket file does not exist"
  | Some (Ended (Parsed state)) => Ok state
  | Some (Ended Unparsable) => Throw "Invalid JSON from daemon"
  | Some (Failed message) => Throw message
  | Some TimedOut => Throw "Socket read timeout"
  end.

Definition readFromFile (env : Env) : result BiometricState :=
  match state_file env with
  | None => Throw "State file does not exist"
  | Some (Parsed state) => Ok state
  | Some Unparsable => Throw "SyntaxError"
  end.

Section Liveness.

(** [process.kill(pid, 0)] returns without throwing. *)
Variable process_exists : Z -> bool.

Definition isDaemonAlive (pid : Z) : bool :=
  if pid <=? 0 then false
  else if process_exists pid then true else false.

Definition validateState (now : Z) (state : BiometricState)
  : BiometricState :=
  let age := now - timestamp state in
  if age >? MAX_STALENESS_MS then getDefaultState now
  else if negb (isDaemonAlive (daemon_pid state)) then getDefaultState now
  else state.

Definition readBiometricState (env : Env) (now : Z)
  : result BiometricState :=
  try_catch
    (state <- readFromSocket env ;;
     Ok (validateState now state))
    (fun socketError =>
       try_catch
         (state <- readFromFile env ;;
          Ok (validateState now state))
         (fun fileError => Ok (getDefaultState now))).

End Liveness.

End StateReader.

(* ------------------------------------------------------------------ *)
(** ** api.ts *)

(** [interface MobileBiometricData]: every field is optional. *)
Module Mobile.
Record MobileBiometricData : Type := mkData {
  heart_rate : option num;
  hrv : option num;
  source : option string;
  timestamp : option Z
}.
End Mobile.

Module Api.

Definition hrvToStress (hrv : num) : num :=
  if geb hrv (dec 100) then dec 0.1
  else if geb hrv (dec 80) then dec 0.2
  else if geb hrv (dec 60) then dec 0.4
  else if geb hrv (dec 40) then dec 0.6
  else if geb hrv (dec 25) then dec 0.8
  else dec 0.95.

Definition heartRateToStress (hr : num) : num :=
  if ltb hr (dec 60) then dec 0.2
  else if ltb hr (dec 70) then dec 0.3
  else if ltb hr (dec 80) then dec 0.5
  else if ltb hr (dec 90) then dec 0.6
  else if ltb hr (dec 100) then dec 0.75
  else dec 0.9.

Definition stressToFlowState (stress : num) : string :=
  if ltb stress (dec 0.25) then "DEEP_FLOW"
  else if ltb stress (dec 0.4) then "CALM"
  else if ltb stress (dec 0.65) then "NORMAL"
  else "STRESSED".

(** The values the two step functions return. *)
Definition stressLevels : list num :=
  [ dec 0.1; dec 0.2; dec 0.4; dec 0.6; dec 0.8; dec 0.95;
    dec 0.3; dec 0.5; dec 0.75; dec 0.9 ].

(** [fs.mkdirSync] then [fs.writeFileSync] of the serialized record. *)
Definition writeStateFile (state : BiometricState) (env : Env) : result Env :=
  if writable env
  then Ok {| state_sock := state_sock env;
             state_file := Some (Parsed state);
             writable := writable env |}
  else Throw "EACCES".

(** Every path of [pushToSocket] resolves; the daemon that would receive
    the update is an external process, so the push leaves [Env] as it is.
    What the push writes to the socket is [Request.pushToSocket] below. *)
Definition pushToSocket (state : BiometricState) (env : Env) : result Env :=
  Ok env.

(** The three answers of the ingestion endpoint. *)
Inductive response : Type :=
| Status400 (error : string)
| Status500 (error : string)
| Updated (stress_index : num) (flow_state : string) (source : string).

(** Lines 65-90 of [handleBiometricsPost]: the record built from an
    accepted sample. *)
Definition buildState (data : Mobile.MobileBiometricData) (now : Z)
  : BiometricState :=
  let stress_index :=
    match Mobile.hrv data with
    | Some hrv => hrvToStress hrv
    | None =>
        match Mobile.heart_rate data with
        | Some heart_rate => heartRateToStress heart_rate
        | None => dec 0.5
        end
    end in
  let flow_state := stressToFlowState stress_index in
  {| stress_index := round2 stress_index;
     flow_state := flow_state;
     timestamp :=
       match Mobile.timestamp data with
       | Some t => if t =? 0 then now else t
       | None => now
       end;
     ttl_seconds := 300;
     daemon_pid := -1;
     confidence := if truthy (Mobile.hrv data) then dec 0.9 else dec 0.6;
     source :=
       match Mobile.source data with
       | Some s => if String.eqb s "" then "mobile_healthkit" else s
       | None => "mobile_healthkit"
       end |}.

Definition handleBiometricsPost
    (data : Mobile.MobileBiometricData) (now : Z) (env : Env)
  : response * Env :=
  if negb (truthy (Mobile.hrv data)) && negb (truthy (Mobile.heart_rate data))
  then (Status400 "Missing required field: hrv or heart_rate", env)
  else
    let state := buildState data now in
    match (env1 <- writeStateFile state env ;; pushToSocket state env1) with
    | Ok env2 =>
        (Updated (stress_index state) (flow_state state) (source state), env2)
    | Throw _ => (Status500 "Internal server error", env)
    end.

(** The status endpoint reads the state as an untyped object: a property
    may be missing. *)
Record StateObject : Type := mkObject {
  o_stress_index : option num;
  o_flow_state : option string;
  o_timestamp : option Z;
  o_ttl_seconds : option Z;
  o_daemon_pid : option Z;
  o_confidence : option num;
  o_source : option string
}.

Definition toObject (s : BiometricState) : StateObject :=
  {| o_stress_index := Some (stress_index s);
     o_flow_state := Some (flow_state s);
     o_timestamp := Some (timestamp s);
     o_ttl_seconds := Some (ttl_seconds s);
     o_daemon_pid := Some (daemon_pid s);
     o_confidence := Some (confidence s);
     o_source := Some (source s) |}.

Definition readCurrentState (env : Env) : result StateObject :=
  match state_file env with
  | Some (Parsed state) => Ok (toObject state)
  | Some Unparsable => Throw "SyntaxError"
  | None =>
      Ok {| o_stress_index := Some (dec 0);
            o_flow_state := Some "UNKNOWN";
            o_timestamp := Some 0;
            o_ttl_seconds := None;
            o_daemon_pid := Some (-1);
            o_confidence := None;
            o_source := Some "none" |}
  end.

End Api.

(* ------------------------------------------------------------------ *)
(** ** The readers on documents of any shape *)

Module Untyped.

(** The value [JSON.parse] returns, as far as the code looks at it: [null],
    on which reading a property throws a TypeError, or a value whose
    properties can be read (an object; a number, a string, a boolean or an
    array has none of the seven properties).  A property of the object is
    [Some v] when the operator the code applies to it ([-], [>], [<=],
    [===], [process.kill]) reads it as [v], and [None] when the property is
    missing or is read as [NaN] or refused. *)
Inductive parsed : Type :=
| PNull
| PObject (object : Api.StateObject).

(** The text of the state file or of the data received on the socket. *)
Inductive document : Type :=
| Json (value : parsed)
| NotJson.

(** The event that settles a read of the socket: ["end"], ["error"] or
    ["timeout"]. *)
Inductive socket : Type :=
| SockEnded (data : document)
| SockFailed (message : string)
| SockTimedOut.

Record World : Type := mkWorld {
  sock : option socket;
  file : option document;
  can_write : bool
}.

(** The environments of complete records among the worlds. *)
Definition ofPayload (p : payload) : document :=
  match p with
  | Parsed state => Json (PObject (Api.toObject state))
  | Unparsable => NotJson
  end.

Definition ofConnection (c : connection) : socket :=
  match c with
  | Ended data => SockEnded (ofPayload data)
  | Failed message => SockFailed message
  | TimedOut => SockTimedOut
  end.

Definition ofEnv (env : Env) : World :=
  {| sock := option_map ofConnection (state_sock env);
     file := option_map ofPayload (state_file env);
     can_write := writable env |}.

(** [readFromSocket] and [readFromFile] of state-reader.ts. *)
Definition readFromSocket (w : World) : result parsed :=
  match sock w with
  | None => Throw "Socket file does not exist"
  | Some (SockEnded (Json value)) => Ok value
  | Some (SockEnded NotJson) => Throw "Invalid JSON from daemon"
  | Some (SockFailed message) => Throw message
  | Some SockTimedOut => Throw "Socket read timeout"
  end.

Definition readFromFile (w : World) : result parsed :=
  match file w with
  | None => Throw "State file does not exist"
  | Some (Json value) => Ok value
  | Some NotJson => Throw "SyntaxError"
  end.

(** [age > MAX_STALENESS_MS] for [age = now - state.timestamp]; the test is
    false when the age is [NaN]. *)
Definition stale (now : Z) (timestamp : option Z) : bool :=
  match timestamp with
  | Some t => now - t >? StateReader.MAX_STALENESS_MS
  | None => false
  end.

Section Liveness.

Variable process_exists : Z -> bool.

(** [isDaemonAlive]; on a pid that is not a number [pid <= 0] is false and
    [process.kill] throws. *)
Definition isDaemonAlive (pid : option Z) : bool :=
  match pid with
  | Some p => StateReader.isDaemonAlive process_exists p
  | None => false
  end.

Definition validateState (now : Z) (state : parsed) : result Api.StateObject :=
  match state with
  | PNull => Throw "TypeError: Cannot read properties of null"
  | PObject object =>
      if stale now (Api.o_timestamp object)
      then Ok (Api.toObject (StateReader.getDefaultState now))
      else if negb (isDaemonAlive (Api.o_daemon_pid object))
      then Ok (Api.toObject (StateReader.getDefaultState now))
      else Ok object
  end.

Definition readBiometricState (w : World) (now : Z)
  : result Api.StateObject :=
  try_catch
    (state <- readFromSocket w ;;
     validateState now state)
    (fun socketError =>
       try_catch
         (state <- readFromFile w ;;
          validateState now state)
         (fun fileError =>
            Ok (Api.toObject (StateReader.getDefaultState now)))).

End Liveness.

(** [readCurrentState] and [handleStatusGet] of api.ts; reading
    [state.daemon_pid] of [null] throws inside the [try]. *)
Definition readCurrentState (w : World) : result parsed :=
  match file w with
  | Some (Json value) => Ok value
  | Some NotJson => Throw "SyntaxError"
  | None =>
      Ok (PObject
            {| Api.o_stress_index := Some (dec 0);
               Api.o_flow_state := Some "UNKNOWN";
               Api.o_timestamp := Some 0;
               Api.o_ttl_seconds := None;
               Api.o_daemon_pid := Some (-1);
               Api.o_confidence := None;
               Api.o_source := Some "none" |})
  end.

End Untyped.

(* ------------------------------------------------------------------ *)
(** ** The simulate command *)

Module Simulate.

Record SimulateOptions : Type := mkOptions {
  preset : option string;
  stress : option string;
  flow : option string
}.

(** The own properties of [PRESETS]: name, [stress_index], [flow_state].
    [PRESETS[name]] also finds the properties the object inherits (such as
    [constructor]); [simulate] below takes them from its parameter
    [inherited]. *)
Definition PRESETS : list (string * (num * string)) :=
  [ ("high-stress", (dec 0.9, "STRESSED"));
    ("calm", (dec 0.2, "CALM"));
    ("deep-flow", (dec 0.15, "DEEP_FLOW"));
    ("normal", (dec 0.5, "NORMAL")) ].

Fixpoint lookup {A : Type} (key : string) (table : list (string * A))
  : option A :=
  match table with
  | [] => None
  | (k, v) :: rest => if String.eqb k key then Some v else lookup key rest
  end.

(** A non-empty string is truthy. *)
Definition given (o : option string) : option string :=
  match o with
  | Some s => if String.eqb s "" then None else Some s
  | None => None
  end.

Definition upper (c : ascii) : ascii :=
  let n := nat_of_ascii c in
  if (97 <=? n)%nat && (n <=? 122)%nat then ascii_of_nat (n - 32) else c.

(** What [String.prototype.toUpperCase] does on ASCII text; [simulate]
    below takes the function itself as a parameter. *)
Fixpoint asciiToUpperCase (s : string) : string :=
  match s with
  | EmptyString => EmptyString
  | String c rest => String (upper c) (asciiToUpperCase rest)
  end.

Definition validStates : list string :=
  ["CALM"; "NORMAL"; "STRESSED"; "DEEP_FLOW"; "UNKNOWN"].

Definition includes (l : list string) (s : string) : bool :=
  existsb (String.eqb s) l.

(** The command either leaves through [process.exit(1)], fails on the
    write, or writes the record.  The record is complete ([Written]) unless
    the preset was an inherited property and a flag did not supply the
    stress index or the flow state: then the object it writes lacks that
    property ([WrittenPartial]). *)
Inductive outcome : Type :=
| Exit1 (message : string)
| Raised (message : string)
| Written (state : BiometricState) (env : Env)
| WrittenPartial (object : Api.StateObject) (world : Untyped.World).

Section Simulate.

(** [parseFloat]; [None] stands for [NaN]. *)
Variable parseFloat : string -> option num.
(** [process.pid] of the command. *)
Variable pid : Z.
(** [String.prototype.toUpperCase]. *)
Variable toUpperCase : string -> string.
(** Whether the name is a property that a plain object inherits from
    [Object.prototype], so that [PRESETS[name]] is truthy for it. *)
Variable inherited : string -> bool.

(** The three option blocks run in order; a [Throw] between them stands
    for the [process.exit(1)] that ends the command there.  [None] is
    [undefined]: the [stress_index] and [flow_state] of an inherited
    property. *)
Definition simulate (options : SimulateOptions) (now : Z) (env : Env)
  : outcome :=
  let start := (Some (dec 0.5), Some "NORMAL") in
  let after_preset :=
    match given (preset options) with
    | Some name =>
        match lookup name PRESETS with
        | Some (stress_index, flow_state) =>
            Ok (Some stress_index, Some flow_state)
        | None =>
            if inherited name then Ok (None, None)
            else Throw ("Unknown preset: " ++ name)
        end
    | None => Ok start
    end in
  let after_stress :=
    '(stress_index, flow_state) <- after_preset ;;
    match given (stress options) with
    | Some text =>
        match parseFloat text with
        | None => Throw "Stress must be a number between 0.0 and 1.0"
        | Some x =>
            if ltb x (dec 0) || gtb x (dec 1)
            then Throw "Stress must be a number between 0.0 and 1.0"
            else Ok (Some x, flow_state)
        end
    | None => Ok (stress_index, flow_state)
    end in
  let after_flow :=
    '(stress_index, flow_state) <- after_stress ;;
    match given (flow options) with
    | Some text =>
        let flow_state := toUpperCase text in
        if negb (includes validStates flow_state)
        then Throw ("Invalid flow state: " ++ text)
        else Ok (stress_index, Some flow_state)
    | None => Ok (stress_index, flow_state)
    end in
  match after_flow with
  | Throw message => Exit1 message
  | Ok (Some stress_index, Some flow_state) =>
      let state :=
        {| stress_index := stress_index;
           flow_state := flow_state;
           timestamp := now;
           ttl_seconds := 300;
           daemon_pid := pid;
           confidence := dec 1.0;
           source := "simulation" |} in
      match Api.writeStateFile state env with
      | Ok env1 => Written state env1
      | Throw message => Raised message
      end
  | Ok (stress_index, flow_state) =>
      let object :=
        {| Api.o_stress_index := stress_index;
           Api.o_flow_state := flow_state;
           Api.o_timestamp := Some now;
           Api.o_ttl_seconds := Some 300;
           Api.o_daemon_pid := Some pid;
           Api.o_confidence := Some (dec 1.0);
           Api.o_source := Some "simulation" |} in
      if writable env
      then WrittenPartial object
             {| Untyped.sock := Untyped.sock (Untyped.ofEnv env);
                Untyped.file := Some (Untyped.Json (Untyped.PObject object));
                Untyped.can_write := writable env |}
      else Raised "EACCES"
  end.

End Simulate.

End Simulate.

(* ------------------------------------------------------------------ *)
(** ** index.ts: the [message:pre_process] hook *)

Module Plugin.

(** [event.context].  [systemPrecepts] is [None] when the property is
    missing or is not an array ([Array.isArray] is false). *)
Record Context : Type := mkContext {
  biometrics : option BiometricState;
  biometricNote : option string;
  systemPrecepts : option (list string)
}.

Definition nl : string := String (ascii_of_nat 10) EmptyString.

(** [array.push(x)]; the guard before it makes the property an array. *)
Definition push (x : string) (ctx : Context) : Context :=
  {| biometrics := biometrics ctx;
     biometricNote := biometricNote ctx;
     systemPrecepts :=
       Some (match systemPrecepts ctx with
             | Some l => (l ++ [x])%list
             | None => [x]
             end) |}.

Definition setNote (note : string) (ctx : Context) : Context :=
  {| biometrics := biometrics ctx;
     biometricNote := Some note;
     systemPrecepts := systemPrecepts ctx |}.

(** [event.context.biometricNote || ""]. *)
Definition noteOrEmpty (ctx : Context) : string :=
  match biometricNote ctx with
  | Some s => s
  | None => ""
  end.

(** A context the host hands over without directives or note. *)
Definition fresh : Context :=
  {| biometrics := None; biometricNote := None; systemPrecepts := None |}.

(** The directive array of a context, empty when there is none. *)
Definition precepts (ctx : Context) : list string :=
  match systemPrecepts ctx with
  | Some l => l
  | None => []
  end.

(** The conditions of the two [if] statements of the hook (lines 46 and
    57), and the directives they push, in the order of the pushes. *)
Definition rule1 (state : BiometricState) : bool :=
  gtb (stress_index state) (dec 0.7) && gtb (confidence state) (dec 0.5).

Definition rule2 (state : BiometricState) : bool :=
  String.eqb (flow_state state) "DEEP_FLOW"
  && gtb (confidence state) (dec 0.5).

Definition fired (state : BiometricState) : list string :=
  ((if rule1 state then ["CONCISE_MODE"] else []) ++
   (if rule2 state then ["NO_INTERRUPT"] else []))%list.

Section Hook.

(** How a template literal prints a number. *)
Variable numberToString : num -> string.
Variable process_exists : Z -> bool.

Definition conciseNote (state : BiometricState) : string :=
  "[SYSTEM: User Biophysical Context]" ++ nl ++
  "Stress Level: HIGH (" ++ numberToString (stress_index state) ++ ")" ++ nl ++
  "Recommendation: Keep responses concise and direct. " ++
  "Avoid follow-up questions unless essential.".

Definition deepFlowNote : string :=
  nl ++ "[SYSTEM: User is in DEEP FLOW state]" ++ nl ++
  "Recommendation: Avoid interrupting with clarifying questions. " ++
  "Provide complete answers without requiring user input.".

(** The body of the hook after the state has been read (lines 37-65). *)
Definition derive (state : BiometricState) (ctx : Context) : Context :=
  let ctx1 :=
    {| biometrics := Some state;
       biometricNote := biometricNote ctx;
       systemPrecepts := systemPrecepts ctx |} in
  let ctx2 :=
    match systemPrecepts ctx1 with
    | Some _ => ctx1
    | None =>
        {| biometrics := biometrics ctx1;
           biometricNote := biometricNote ctx1;
           systemPrecepts := Some [] |}
    end in
  let ctx3 :=
    if gtb (stress_index state) (dec 0.7) && gtb (confidence state) (dec 0.5)
    then setNote (conciseNote state) (push "CONCISE_MODE" ctx2)
    else ctx2 in
  let ctx4 :=
    if String.eqb (flow_state state) "DEEP_FLOW"
       && gtb (confidence state) (dec 0.5)
    then
      let ctx' := push "NO_INTERRUPT" ctx3 in
      setNote (noteOrEmpty ctx' ++ deepFlowNote) ctx'
    else ctx3 in
  ctx4.

Definition pre_process (env : Env) (now : Z) (ctx : Context)
  : result Context :=
  state <- StateReader.readBiometricState process_exists env now ;;
  Ok (derive state ctx).

(** What one evaluation of the rules pushes for a record: the directive
    array it leaves in a context that had none. *)
Definition directives (state : BiometricState) : list string :=
  precepts (derive state fresh).

End Hook.

End Plugin.

(* ------------------------------------------------------------------ *)
(** ** api.ts: the status endpoint *)

Module StatusEndpoint.

(** The two answers of [GET /openheart/status].  In the first,
    [age_ms] is [None] when the record has no timestamp ([NaN]). *)
Inductive response : Type :=
| StatusOk (daemon_running : bool) (stress_index : option num)
    (flow_state : option string) (source : option string)
    (age_ms : option Z)
| Degraded (error : string).

(** [state.daemon_pid > 0]; a missing property compares false. *)
Definition daemonRunning (state : Api.StateObject) : bool :=
  match Api.o_daemon_pid state with
  | Some pid => pid >? 0
  | None => false
  end.

Definition handleStatusGet (now : Z) (env : Env) : response :=
  match Api.readCurrentState env with
  | Ok state =>
      StatusOk (daemonRunning state)
        (Api.o_stress_index state)
        (Api.o_flow_state state)
        (Api.o_source state)
        (option_map (fun t => now - t) (Api.o_timestamp state))
  | Throw _ => Degraded "Unable to read state"
  end.

End StatusEndpoint.

(* ------------------------------------------------------------------ *)
(** ** daemon.ts *)

Module Daemon.

(** What [parseInt(text.trim(), 10)] makes of the PID file. *)
Inductive pid_text : Type :=
| Pid (pid : Z)
| NotANumber.

(** [isProcessRunning]: [process.kill(pid, 0)] returns; it throws on
    [NaN]. *)
Definition isProcessRunning (process_exists : Z -> bool) (pid : pid_text)
  : bool :=
  match pid with
  | Pid p => if process_exists p then true else false
  | NotANumber => false
  end.

(** [isDaemonRunning]; the argument is the PID file, [None] when absent. *)
Definition isDaemonRunning (process_exists : Z -> bool)
    (pid_file : option pid_text) : bool :=
  match pid_file with
  | None => false
  | Some pid => isProcessRunning process_exists pid
  end.

(** [readState]: the reader of the status command.  It falls back to the
    file only on the ["error"] event of the connection. *)
Definition readState (env : Env) : result BiometricState :=
  match state_sock env with
  | Some (Ended (Parsed state)) => Ok state
  | Some (Ended Unparsable) => Throw "Invalid JSON"
  | Some (Failed message) =>
      match state_file env with
      | Some (Parsed state) => Ok state
      | Some Unparsable => Throw "Invalid state file"
      | None => Throw message
      end
  | Some TimedOut => Throw "Timeout"
  | None =>
      match state_file env with
      | Some (Parsed state) => Ok state
      | Some Unparsable => Throw "Invalid state file"
      | None => Throw "No state available"
      end
  end.

(** *** [stopDaemon] *)

Inductive signal : Type := SIGTERM | SIGKILL.

(** The lines [stopDaemon] prints. *)
Inductive stop_line : Type :=
| NoPidFile       (* Daemon not running (no PID file) *)
| Stopping        (* Stopping daemon (PID: ...)... *)
| ForceKilled     (* Daemon force-killed *)
| StoppedCleanly  (* Daemon stopped *)
| NotFound.       (* Daemon process not found (already stopped) *)

(** How the tracked process reacts while [stopDaemon] runs: whether the
    call sending SIGTERM returns, whether the k-th later call of
    [isProcessRunning] (k = 0, 1, ...) finds it, and whether the call
    sending SIGKILL returns. *)
Record Fate : Type := mkFate {
  term_delivered : bool;
  answers : nat -> bool;
  kill_delivered : bool
}.

Record StopReport : Type := mkStop {
  sent : list signal;
  sleeps : nat;
  printed : list stop_line;
  pid_file_after : option pid_text
}.

(** The [while (attempts > 0 && isProcessRunning(pid))] loop, from the
    k-th probe on: the number of 200 ms sleeps and the number of probes
    made once it ends. *)
Fixpoint poll (answers : nat -> bool) (attempts k : nat) : nat * nat :=
  match attempts with
  | O => (O, k)
  | S rest =>
      if answers k
      then let '(n, k') := poll answers rest (S k) in (S n, k')
      else (O, S k)
  end.

(** [stopDaemon]; file system calls succeed.  The PID file is unlinked at
    the end of every path that found one. *)
Definition stopDaemon (pid_file : option pid_text) (fate : Fate)
  : StopReport :=
  match pid_file with
  | None =>
      {| sent := []; sleeps := 0; printed := [NoPidFile];
         pid_file_after := None |}
  | Some pid =>
      let term :=
        match pid with
        | Pid _ => term_delivered fate
        | NotANumber => false
        end in
      if term then
        let '(n, k) := poll (answers fate) 10 0 in
        if answers fate k then
          if kill_delivered fate then
            {| sent := [SIGTERM; SIGKILL]; sleeps := n;
               printed := [Stopping; ForceKilled];
               pid_file_after := None |}
          else
            {| sent := [SIGTERM]; sleeps := n;
               printed := [Stopping; NotFound];
               pid_file_after := None |}
        else
          {| sent := [SIGTERM]; sleeps := n;
             printed := [Stopping; StoppedCleanly];
             pid_file_after := None |}
      else
        {| sent := []; sleeps := 0; printed := [NotFound];
           pid_file_after := None |}
  end.

(** *** [formatStress] and the status command *)

(** [String.prototype.repeat] for an integer count. *)
Fixpoint copies (s : string) (n : nat) : string :=
  match n with
  | O => ""
  | S m => s ++ copies s m
  end.

Section Printing.

(** [Number.prototype.toFixed(0)] and the printing of an integer. *)
Variable toFixed0 : num -> string.
Variable intToString : Z -> string.

Definition repeat (s : string) (count : Z) : result string :=
  if count <? 0
  then Throw ("Invalid count value: " ++ intToString count)
  else Ok (copies s (Z.to_nat count)).

Definition stressLabel (stress : num) : string :=
  if ltb stress (dec 0.3) then "Low"
  else if ltb stress (dec 0.6) then "Moderate"
  else if ltb stress (dec 0.8) then "High"
  else "Critical".

Definition formatStress (stress : num) : result string :=
  filled <- repeat "█" (Math_round (stress * dec 10)%Qc) ;;
  empty <- repeat "░" (10 - Math_round (stress * dec 10)%Qc) ;;
  let bar := filled ++ empty in
  let label := stressLabel stress in
  Ok (bar ++ " " ++ toFixed0 (stress * dec 100)%Qc ++ "% (" ++ label ++ ")").

(** The report of [getDaemonStatus]: the daemon line, the socket line and
    the state block, whose first line is the one of [formatStress]. *)
Inductive state_block : Type :=
| StateLines (stress_line : string) (state : BiometricState) (age_ms : Z)
| Unable (error : string).

Inductive status_report : Type :=
| NotRunning
| Running (pid : pid_text) (socket_available : bool) (block : state_block).

Variable process_exists : Z -> bool.

Definition getDaemonStatus (pid_file : option pid_text) (env : Env) (now : Z)
  : status_report :=
  match pid_file with
  | Some pid =>
      if isDaemonRunning process_exists pid_file then
        Running pid
          (match state_sock env with Some _ => true | None => false end)
          (match
              (state <- readState env ;;
               line <- formatStress (stress_index state) ;;
               Ok (StateLines line state (now - timestamp state)))
            with
            | Ok block => block
            | Throw message => Unable message
            end)
      else NotRunning
  | None => NotRunning
  end.

End Printing.

End Daemon.

(* ------------------------------------------------------------------ *)
(** ** The status endpoint and the hook on documents of any shape *)

Module UntypedStatus.

(** [handleStatusGet] of api.ts on whatever the state file holds. *)
Definition handleStatusGet (now : Z) (w : Untyped.World)
  : StatusEndpoint.response :=
  match Untyped.readCurrentState w with
  | Ok (Untyped.PObject state) =>
      StatusEndpoint.StatusOk (StatusEndpoint.daemonRunning state)
        (Api.o_stress_index state)
        (Api.o_flow_state state)
        (Api.o_source state)
        (option_map (fun t => now - t) (Api.o_timestamp state))
  | Ok Untyped.PNull => StatusEndpoint.Degraded "Unable to read state"
  | Throw _ => StatusEndpoint.Degraded "Unable to read state"
  end.

End UntypedStatus.

Module Request.

(** The event that settles the connection of [pushToSocket] (api.ts
    198-212): ["connect"], ["error"] or ["timeout"]. *)
Inductive pushEvent : Type :=
| PushConnect
| PushError
| PushTimeout.

(** [pushToSocket] of api.ts, by what it writes to the socket of the
    daemon: the [state] of the command [{cmd: "update", state}] on
    ["connect"], nothing when the socket file does not exist or the
    connection errors or times out.  Every path resolves. *)
Definition pushToSocket
    (state : BiometricState) (env : Env) (event : pushEvent)
  : option BiometricState :=
  match state_sock env with
  | None => None
  | Some _ =>
      match event with
      | PushConnect => Some state
      | PushError => None
      | PushTimeout => None
      end
  end.

(** [handleBiometricsPost] of api.ts on a request: [body] is [None] when
    [req.body] is undefined, and then reading [data.hrv] (line 58) raises
    inside the [try], which answers 500 (lines 104-107).  The result is the
    answer, the environment and the update written to the socket of the
    daemon, if any. *)
Definition handleBiometricsPost
    (body : option Mobile.MobileBiometricData) (now : Z) (env : Env)
    (event : pushEvent)
  : Api.response * Env * option BiometricState :=
  match body with
  | None => (Api.Status500 "Internal server error", env, None)
  | Some data =>
      if negb (truthy (Mobile.hrv data))
         && negb (truthy (Mobile.heart_rate data))
      then (Api.Status400 "Missing required field: hrv or heart_rate",
            env, None)
      else
        let state := Api.buildState data now in
        match Api.writeStateFile state env with
        | Ok env1 =>
            (Api.Updated (stress_index state) (flow_state state)
               (source state),
             env1, pushToSocket state env1 event)
        | Throw _ => (Api.Status500 "Internal server error", env, None)
        end
  end.

End Request.

Module UntypedHook.

(** [event.context] when [biometrics] holds whatever the fetch returned. *)
Record Context : Type := mkContext {
  biometrics : option Api.StateObject;
  biometricNote : option string;
  systemPrecepts : option (list string)
}.

Definition push (x : string) (ctx : Context) : Context :=
  {| biometrics := biometrics ctx;
     biometricNote := biometricNote ctx;
     systemPrecepts :=
       Some (match systemPrecepts ctx with
             | Some l => (l ++ [x])%list
             | None => [x]
             end) |}.

Definition setNote (note : string) (ctx : Context) : Context :=
  {| biometrics := biometrics ctx;
     biometricNote := Some note;
     systemPrecepts := systemPrecepts ctx |}.

Definition noteOrEmpty (ctx : Context) : string :=
  match biometricNote ctx with
  | Some s => s
  | None => ""
  end.

Definition precepts (ctx : Context) : list string :=
  match systemPrecepts ctx with
  | Some l => l
  | None => []
  end.

(** [value > bound]; false when the value is [undefined]. *)
Definition exceeds (value : option num) (bound : num) : bool :=
  match value with
  | Some x => gtb x bound
  | None => false
  end.

(** The conditions at lines 46 and 57 of the hook. *)
Definition rule1 (state : Api.StateObject) : bool :=
  exceeds (Api.o_stress_index state) (dec 0.7)
  && exceeds (Api.o_confidence state) (dec 0.5).

Definition rule2 (state : Api.StateObject) : bool :=
  match Api.o_flow_state state with
  | Some f => String.eqb f "DEEP_FLOW"
  | None => false
  end
  && exceeds (Api.o_confidence state) (dec 0.5).

Definition fired (state : Api.StateObject) : list string :=
  ((if rule1 state then ["CONCISE_MODE"] else []) ++
   (if rule2 state then ["NO_INTERRUPT"] else []))%list.

Section Hook.

Variable numberToString : num -> string.
Variable process_exists : Z -> bool.

Definition conciseNote (state : Api.StateObject) : string :=
  "[SYSTEM: User Biophysical Context]" ++ Plugin.nl ++
  "Stress Level: HIGH (" ++
  match Api.o_stress_index state with
  | Some x => numberToString x
  | None => "undefined"
  end ++ ")" ++ Plugin.nl ++
  "Recommendation: Keep responses concise and direct. " ++
  "Avoid follow-up questions unless essential.".

Definition derive (state : Api.StateObject) (ctx : Context) : Context :=
  let ctx1 :=
    {| biometrics := Some state;
       biometricNote := biometricNote ctx;
       systemPrecepts := systemPrecepts ctx |} in
  let ctx2 :=
    match systemPrecepts ctx1 with
    | Some _ => ctx1
    | None =>
        {| biometrics := biometrics ctx1;
           biometricNote := biometricNote ctx1;
           systemPrecepts := Some [] |}
    end in
  let ctx3 :=
    if exceeds (Api.o_stress_index state) (dec 0.7)
       && exceeds (Api.o_confidence state) (dec 0.5)
    then setNote (conciseNote state) (push "CONCISE_MODE" ctx2)
    else ctx2 in
  let ctx4 :=
    if match Api.o_flow_state state with
       | Some f => String.eqb f "DEEP_FLOW"
       | None => false
       end
       && exceeds (Api.o_confidence state) (dec 0.5)
    then
      let ctx' := push "NO_INTERRUPT" ctx3 in
      setNote (noteOrEmpty ctx' ++ Plugin.deepFlowNote) ctx'
    else ctx3 in
  ctx4.

Definition pre_process (w : Untyped.World) (now : Z) (ctx : Context)
  : result Context :=
  state <- Untyped.readBiometricState process_exists w now ;;
  Ok (derive state ctx).

End Hook.

End UntypedHook.

(* ------------------------------------------------------------------ *)
(** ** Predicates of the properties *)

Module Facts.

(** A record the reader may hand out: the default record of this instant,
    or a record no older than the ceiling whose producer runs. *)
Definition trusted (process_exists : Z -> bool) (now : Z)
    (r : BiometricState) : Prop :=
  r = StateReader.getDefaultState now \/
  (now - timestamp r <= 60000 /\ 0 < daemon_pid r /\
   process_exists (daemon_pid r) = true).

(** A well-formed State Record as [interface BiometricState] declares it:
    the seven properties are present, [stress_index] and [confidence] lie
    between 0.0 and 1.0, and [flow_state] is one of the five labels. *)
Definition wellFormed (o : Api.StateObject) : Prop :=
  (exists x, Api.o_stress_index o = Some x /\ (0 <= x)%Qc /\ (x <= 1)%Qc) /\
  (exists f, Api.o_flow_state o = Some f /\
             In f ["CALM"; "NORMAL"; "STRESSED"; "DEEP_FLOW"; "UNKNOWN"]) /\
  (exists t, Api.o_timestamp o = Some t) /\
  (exists n, Api.o_ttl_seconds o = Some n) /\
  (exists p, Api.o_daemon_pid o = Some p) /\
  (exists c, Api.o_confidence o = Some c /\ (0 <= c)%Qc /\ (c <= 1)%Qc) /\
  (exists src, Api.o_source o = Some src).

End Facts.

(* ------------------------------------------------------------------ *)
(** ** Sample inputs *)

Module Samples.

(** A process table with one running process. *)
Definition onlyProcess (p : Z) : Z -> bool := Z.eqb p.

(** A record of the keystroke daemon. *)
Definition keystrokeRecord (t pid : Z) : BiometricState :=
  {| stress_index := dec 0.8;
     flow_state := "STRESSED";
     timestamp := t;
     ttl_seconds := 5;
     daemon_pid := pid;
     confidence := dec 0.9;
     source := "keystroke" |}.

(** A record whose index and confidence are outside the unit interval. *)
Definition rawRecord (t pid : Z) : BiometricState :=
  {| stress_index := dec 1.5;
     flow_state := "STRESSED";
     timestamp := t;
     ttl_seconds := 5;
     daemon_pid := pid;
     confidence := dec (-0.2);
     source := "keystroke" |}.

(** Nothing under [~/.openheart]. *)
Definition noSignal : Env :=
  {| state_sock := None; state_file := None; writable := true |}.

(** The connection to the socket times out and the state file holds text
    that is not JSON. *)
Definition brokenSignal : Env :=
  {| state_sock := Some TimedOut;
     state_file := Some Unparsable;
     writable := true |}.

(** [{ heart_rate: 95 }]. *)
Definition heartRate95 : Mobile.MobileBiometricData :=
  {| Mobile.heart_rate := Some (dec 95);
     Mobile.hrv := None;
     Mobile.source := None;
     Mobile.timestamp := None |}.

(** [{ hrv: 0, heart_rate: 72 }]. *)
Definition hrvZero : Mobile.MobileBiometricData :=
  {| Mobile.heart_rate := Some (dec 72);
     Mobile.hrv := Some (dec 0);
     Mobile.source := None;
     Mobile.timestamp := None |}.

(** [{ hrv: 90, heart_rate: 72 }]. *)
Definition hrv90 : Mobile.MobileBiometricData :=
  {| Mobile.heart_rate := Some (dec 72);
     Mobile.hrv := Some (dec 90);
     Mobile.source := None;
     Mobile.timestamp := None |}.

(** The environment [noSignal] after [hrv90] was posted at 1700000000000. *)
Definition afterMobile : Env :=
  {| state_sock := None;
     state_file := Some (Parsed (Api.buildState hrv90 1700000000000));
     writable := true |}.

(** [--preset <name>] alone. *)
Definition presetOnly (name : string) : Simulate.SimulateOptions :=
  {| Simulate.preset := Some name;
     Simulate.stress := None;
     Simulate.flow := None |}.

(** [--stress 0.9 --flow calm]. *)
Definition stressAndFlow : Simulate.SimulateOptions :=
  {| Simulate.preset := None;
     Simulate.stress := Some "0.9";
     Simulate.flow := Some "calm" |}.

(** [parseFloat] on the one text the samples use. *)
Definition parseSample (text : string) : option num :=
  if String.eqb text "0.9" then Some (dec 0.9) else None.

(** Number printing on the values the samples use. *)
Definition printSample (x : num) : string :=
  if Qeq_bool x (dec 0.9) then "0.9" else "0.15".

(** A validated record at stress 0.9 and confidence 0.9. *)
Definition stressed (c : num) : BiometricState :=
  {| stress_index := dec 0.9;
     flow_state := "STRESSED";
     timestamp := 1700000000000;
     ttl_seconds := 5;
     daemon_pid := 4242;
     confidence := c;
     source := "keystroke" |}.

(** A validated record in deep flow. *)
Definition deepFlow (c : num) : BiometricState :=
  {| stress_index := dec 0.15;
     flow_state := "DEEP_FLOW";
     timestamp := 1700000000000;
     ttl_seconds := 5;
     daemon_pid := 4242;
     confidence := c;
     source := "keystroke" |}.

End Samples.
Import Samples.

Module MoreSamples.

(** The socket delivers a record that is 61 seconds old at 1700000061000
    while the file holds a record of the same producer that is 1 second
    old. *)
Definition staleSocketFreshFile : Env :=
  {| state_sock := Some (Ended (Parsed (keystrokeRecord 1700000000000 4242)));
     state_file := Some (Parsed (keystrokeRecord 1700000060000 4242));
     writable := true |}.

(** No socket; the file holds a record of the running producer 4242 that
    was written at 1700000000000. *)
Definition liveKeystroke : Env :=
  {| state_sock := None;
     state_file := Some (Parsed (keystrokeRecord 1700000000000 4242));
     writable := true |}.

(** What [simulate --stress 0.9 --flow calm] writes at 1700000000000 when
    the command runs as process 4242, and the environment it leaves. *)
Definition simulatedRecord : BiometricState :=
  {| stress_index := dec 0.9;
     flow_state := "CALM";
     timestamp := 1700000000000;
     ttl_seconds := 300;
     daemon_pid := 4242;
     confidence := dec 1.0;
     source := "simulation" |}.

Definition afterSimulate : Env :=
  {| state_sock := None;
     state_file := Some (Parsed simulatedRecord);
     writable := true |}.

(** [--preset panic], [--stress abc] and [--flow sleepy]. *)
Definition unknownPreset : Simulate.SimulateOptions :=
  {| Simulate.preset := Some "panic";
     Simulate.stress := None;
     Simulate.flow := None |}.

Definition badStress : Simulate.SimulateOptions :=
  {| Simulate.preset := None;
     Simulate.stress := Some "abc";
     Simulate.flow := None |}.

Definition badFlow : Simulate.SimulateOptions :=
  {| Simulate.preset := None;
     Simulate.stress := None;
     Simulate.flow := Some "sleepy" |}.

(** The connection times out while the file holds a live record. *)
Definition timeoutWithFile : Env :=
  {| state_sock := Some TimedOut;
     state_file := Some (Parsed (keystrokeRecord 1700000000000 4242));
     writable := true |}.

(** A daemon that takes SIGTERM and still answers the first [n] probes
    made afterwards. *)
Definition exitsAfter (n : nat) : Daemon.Fate :=
  {| Daemon.term_delivered := true;
     Daemon.answers := fun k => Nat.ltb k n;
     Daemon.kill_delivered := true |}.

(** Printing of the samples' percentages and counts. *)
Definition percentSample (x : num) : string :=
  if Qeq_bool x (dec 80) then "80" else "150".

Definition countSample (z : Z) : string :=
  if z =? -5 then "-5" else "?".

(** No socket; the file holds a record of the running producer 4242 with
    stress index 1.5. *)
Definition liveRaw : Env :=
  {| state_sock := None;
     state_file := Some (Parsed (rawRecord 1700000000000 4242));
     writable := true |}.

(** [{ hrv: 0 }]. *)
Definition zeroOnly : Mobile.MobileBiometricData :=
  {| Mobile.heart_rate := None;
     Mobile.hrv := Some 0%Qc;
     Mobile.source := None;
     Mobile.timestamp := None |}.

(** A context in which the host left a note and a directive. *)
Definition hostContext : Plugin.Context :=
  {| Plugin.biometrics := None;
     Plugin.biometricNote := Some "host note";
     Plugin.systemPrecepts := Some ["HOST_RULE"] |}.

(** The properties of [Object.prototype] in Node.js. *)
Definition objectPrototype (name : string) : bool :=
  existsb (String.eqb name)
    [ "constructor"; "__defineGetter__"; "__defineSetter__";
      "hasOwnProperty"; "__lookupGetter__"; "__lookupSetter__";
      "isPrototypeOf"; "propertyIsEnumerable"; "toString"; "valueOf";
      "__proto__"; "toLocaleString" ].

(** An object that holds nothing but the pid of a running process, and a
    world whose state file holds it. *)
Definition pidOnly : Api.StateObject :=
  {| Api.o_stress_index := None;
     Api.o_flow_state := None;
     Api.o_timestamp := None;
     Api.o_ttl_seconds := None;
     Api.o_daemon_pid := Some 4242;
     Api.o_confidence := None;
     Api.o_source := None |}.

Definition pidOnlyFile : Untyped.World :=
  {| Untyped.sock := None;
     Untyped.file := Some (Untyped.Json (Untyped.PObject pidOnly));
     Untyped.can_write := true |}.

(** A stressed, confident record of a running process without timestamp. *)
Definition noTimestamp : Api.StateObject :=
  {| Api.o_stress_index := Some (dec 0.9);
     Api.o_flow_state := Some "STRESSED";
     Api.o_timestamp := None;
     Api.o_ttl_seconds := Some 5;
     Api.o_daemon_pid := Some 4242;
     Api.o_confidence := Some (dec 0.9);
     Api.o_source := Some "keystroke" |}.

Definition noTimestampFile : Untyped.World :=
  {| Untyped.sock := None;
     Untyped.file := Some (Untyped.Json (Untyped.PObject noTimestamp));
     Untyped.can_write := true |}.

(** The socket delivers [null] and the state file holds [null]. *)
Definition nullWorld : Untyped.World :=
  {| Untyped.sock := Some (Untyped.SockEnded (Untyped.Json Untyped.PNull));
     Untyped.file := Some (Untyped.Json Untyped.PNull);
     Untyped.can_write := true |}.

(** [--preset constructor] and [--preset deep-flow --stress 0.9]. *)
Definition inheritedPreset : Simulate.SimulateOptions :=
  {| Simulate.preset := Some "constructor";
     Simulate.stress := None;
     Simulate.flow := None |}.

Definition presetAndStress : Simulate.SimulateOptions :=
  {| Simulate.preset := Some "deep-flow";
     Simulate.stress := Some "0.9";
     Simulate.flow := None |}.

(** A fresh context of the hook on untyped documents. *)
Definition freshUntyped : UntypedHook.Context :=
  {| UntypedHook.biometrics := None;
     UntypedHook.biometricNote := None;
     UntypedHook.systemPrecepts := None |}.

End MoreSamples.
Import MoreSamples.

(* ================================================================== *)
(** * Properties *)

(** ** Comparisons and literals *)

Lemma leb_le (x y : num) : leb x y = true <-> (x <= y)%Qc.
Proof. unfold leb, Qcle. apply Qle_bool_iff. Qed.

Lemma ltb_lt (x y : num) : ltb x y = true <-> (x < y)%Qc.
Proof.
  unfold ltb, Qclt. rewrite negb_true_iff.
  split; intro H.
  - apply Qnot_le_lt. intro Hle. apply Qle_bool_iff in Hle. congruence.
  - destruct (Qle_bool y x) eqn:E; [ | reflexivity ].
    apply Qle_bool_iff in E. exfalso. exact (Qlt_not_le _ _ H E).
Qed.

Lemma gtb_le_false (x y : num) : (x <= y)%Qc -> gtb x y = false.
Proof.
  intro H. unfold gtb, ltb. apply leb_le in H. unfold leb in H.
  rewrite H. reflexivity.
Qed.

Lemma gtb_gt (x y : num) : gtb x y = true <-> (y < x)%Qc.
Proof. unfold gtb. apply ltb_lt. Qed.

(** Two rationals with the same reduced fraction are equal. *)
Ltac qc_eq := apply Qc_is_canon; vm_compute; reflexivity.

(** Two literals that differ. *)
Ltac qc_neq :=
  let H := fresh in
  intro H; apply (f_equal this) in H; vm_compute in H; discriminate H.

Lemma dec_zero : dec 0.0 = 0%Qc.
Proof. qc_eq. Qed.

(** ** The Validator *)

Section ValidatorFacts.

Variable process_exists : Z -> bool.

Local Abbreviation isDaemonAlive := (StateReader.isDaemonAlive process_exists).
Local Abbreviation validateState := (StateReader.validateState process_exists).

Lemma isDaemonAlive_nonpositive (pid : Z) :
  pid <= 0 -> isDaemonAlive pid = false.
Proof.
  intro H. unfold StateReader.isDaemonAlive.
  destruct (Z.leb_spec pid 0); [ reflexivity | lia ].
Qed.

Lemma isDaemonAlive_true (pid : Z) :
  isDaemonAlive pid = true <-> 0 < pid /\ process_exists pid = true.
Proof.
  unfold StateReader.isDaemonAlive.
  destruct (Z.leb_spec pid 0); destruct (process_exists pid);
    split; try (intros [? ?]); try intro; try split;
    try lia; try congruence; reflexivity.
Qed.

Lemma validateState_stale (now : Z) (s : BiometricState) :
  StateReader.MAX_STALENESS_MS < now - timestamp s ->
  validateState now s = StateReader.getDefaultState now.
Proof.
  intro H. unfold StateReader.validateState.
  destruct (Z.gtb_spec (now - timestamp s) StateReader.MAX_STALENESS_MS);
    [ reflexivity | lia ].
Qed.

Lemma validateState_dead (now : Z) (s : BiometricState) :
  isDaemonAlive (daemon_pid s) = false ->
  validateState now s = StateReader.getDefaultState now.
Proof.
  intro H. unfold StateReader.validateState.
  rewrite H. simpl.
  destruct (_ >? _); reflexivity.
Qed.

Lemma validateState_trusted (now : Z) (s : BiometricState) :
  now - timestamp s <= StateReader.MAX_STALENESS_MS ->
  isDaemonAlive (daemon_pid s) = true ->
  validateState now s = s.
Proof.
  intros Hage Hlive. unfold StateReader.validateState.
  rewrite Hlive. simpl.
  destruct (Z.gtb_spec (now - timestamp s) StateReader.MAX_STALENESS_MS);
    [ lia | reflexivity ].
Qed.

(** The Validator answers with its input or with the default record. *)
Lemma validateState_cases (now : Z) (s : BiometricState) :
  validateState now s = s \/
  validateState now s = StateReader.getDefaultState now.
Proof.
  unfold StateReader.validateState.
  destruct (_ >? _); [ now right | ].
  destruct (negb _); [ now right | now left ].
Qed.

(** C1. The Validator returns the default record when the age of the
    record exceeds the 60-second ceiling, whatever the producer id; it
    returns the default record when the producer id is not that of a
    running process (in particular when it is not positive), whatever the
    timestamp; and it returns the record itself when both checks pass. *)
Theorem validator_staleness_and_liveness (now : Z) (s : BiometricState) :
  (60000 < now - timestamp s ->
   validateState now s = StateReader.getDefaultState now) /\
  (daemon_pid s <= 0 \/ process_exists (daemon_pid s) = false ->
   validateState now s = StateReader.getDefaultState now) /\
  (now - timestamp s <= 60000 ->
   0 < daemon_pid s -> process_exists (daemon_pid s) = true ->
   validateState now s = s).
Proof.
  split; [ | split ].
  - apply validateState_stale.
  - intro H. apply validateState_dead.
    destruct H as [H | H].
    + now apply isDaemonAlive_nonpositive.
    + destruct (isDaemonAlive (daemon_pid s)) eqn:E; [ | reflexivity ].
      apply isDaemonAlive_true in E. destruct E as [_ E]. congruence.
  - intros Hage Hpos Hex. apply validateState_trusted; [ exact Hage | ].
    apply isDaemonAlive_true. split; assumption.
Qed.

End ValidatorFacts.

Lemma validator_staleness_and_liveness_witness :
  StateReader.validateState (onlyProcess 4242) 1700000061001
    (keystrokeRecord 1700000000000 4242)
  = StateReader.getDefaultState 1700000061001
  /\
  StateReader.validateState (onlyProcess 4242) 1700000001000
    (keystrokeRecord 1700000000000 (-1))
  = StateReader.getDefaultState 1700000001000
  /\
  StateReader.validateState (onlyProcess 4242) 1700000060000
    (keystrokeRecord 1700000000000 4242)
  = keystrokeRecord 1700000000000 4242.
Proof.
  split; [ | split ].
  - apply (proj1 (validator_staleness_and_liveness (onlyProcess 4242)
                    1700000061001 (keystrokeRecord 1700000000000 4242))).
    simpl. lia.
  - apply (proj1 (proj2 (validator_staleness_and_liveness (onlyProcess 4242)
                    1700000001000 (keystrokeRecord 1700000000000 (-1))))).
    left. simpl. lia.
  - apply (proj2 (proj2 (validator_staleness_and_liveness (onlyProcess 4242)
                    1700000060000 (keystrokeRecord 1700000000000 4242)))).
    + simpl. lia.
    + simpl. lia.
    + reflexivity.
Defined.

(** ** The fetch operation *)

Section FetchFacts.

Variable process_exists : Z -> bool.

Local Abbreviation validateState := (StateReader.validateState process_exists).
Local Abbreviation readBiometricState :=
  (StateReader.readBiometricState process_exists).

(** The socket path fails when the socket is absent, the connection errors
    or times out, or the data is not JSON. *)
Lemma readFromSocket_throws (env : Env) :
  (forall s, state_sock env <> Some (Ended (Parsed s))) <->
  (exists m, StateReader.readFromSocket env = Throw m).
Proof.
  unfold StateReader.readFromSocket.
  destruct (state_sock env) as [ [ [s | ] | m | ] | ]; split; intro H;
    try (eexists; reflexivity); try discriminate;
    try (exfalso; apply (H s); reflexivity);
    try (destruct H as [m' H]; discriminate H).
Qed.

Lemma readFromFile_throws (env : Env) :
  (state_file env = None \/ state_file env = Some Unparsable) <->
  (exists m, StateReader.readFromFile env = Throw m).
Proof.
  unfold StateReader.readFromFile.
  destruct (state_file env) as [ [s | ] | ]; split; intro H;
    try (eexists; reflexivity); try (now left); try (now right).
  - destruct H as [H | H]; discriminate H.
  - destruct H as [m H]; discriminate H.
Qed.

Lemma readBiometricState_socket (env : Env) (now : Z) (s : BiometricState) :
  StateReader.readFromSocket env = Ok s ->
  readBiometricState env now = Ok (validateState now s).
Proof.
  intro H. unfold StateReader.readBiometricState. rewrite H. reflexivity.
Qed.

Lemma readBiometricState_file (env : Env) (now : Z) (m : string)
    (s : BiometricState) :
  StateReader.readFromSocket env = Throw m ->
  StateReader.readFromFile env = Ok s ->
  readBiometricState env now = Ok (validateState now s).
Proof.
  intros Hs Hf. unfold StateReader.readBiometricState.
  rewrite Hs, Hf. reflexivity.
Qed.

Lemma readBiometricState_default (env : Env) (now : Z) (m m' : string) :
  StateReader.readFromSocket env = Throw m ->
  StateReader.readFromFile env = Throw m' ->
  readBiometricState env now = Ok (StateReader.getDefaultState now).
Proof.
  intros Hs Hf. unfold StateReader.readBiometricState.
  rewrite Hs, Hf. reflexivity.
Qed.

Lemma readBiometricState_returns (env : Env) (now : Z) :
  exists s, readBiometricState env now = Ok s.
Proof.
  destruct (StateReader.readFromSocket env) as [s | m] eqn:Hs.
  - eexists. apply readBiometricState_socket. exact Hs.
  - destruct (StateReader.readFromFile env) as [s | m'] eqn:Hf.
    + eexists. eapply readBiometricState_file; eassumption.
    + eexists. eapply readBiometricState_default; eassumption.
Qed.

End FetchFacts.

(** ** The fetch on documents of any shape *)

Section UntypedFetchFacts.

Variable process_exists : Z -> bool.

Local Abbreviation fetch := (Untyped.readBiometricState process_exists).
Local Abbreviation validate := (Untyped.validateState process_exists).

(** On an object the Validator answers with the default record or with
    the object itself, which then is not stale and has a running producer. *)
Lemma untyped_validate_object (now : Z) (o : Api.StateObject) :
  validate now (Untyped.PObject o)
  = Ok (Api.toObject (StateReader.getDefaultState now))
  \/
  (validate now (Untyped.PObject o) = Ok o /\
   Untyped.stale now (Api.o_timestamp o) = false /\
   Untyped.isDaemonAlive process_exists (Api.o_daemon_pid o) = true).
Proof.
  unfold Untyped.validateState.
  destruct (Untyped.stale now (Api.o_timestamp o)); [ now left | ].
  destruct (Untyped.isDaemonAlive process_exists (Api.o_daemon_pid o));
    simpl; [ right; repeat split; reflexivity | now left ].
Qed.

Lemma untyped_fetch_socket (w : Untyped.World) (now : Z) (o : Api.StateObject) :
  Untyped.sock w = Some (Untyped.SockEnded (Untyped.Json (Untyped.PObject o))) ->
  fetch w now = validate now (Untyped.PObject o).
Proof.
  intro H. unfold Untyped.readBiometricState, Untyped.readFromSocket.
  rewrite H. cbn [bind].
  destruct (untyped_validate_object now o) as [E | [E _]]; rewrite E;
    reflexivity.
Qed.

(** The socket path without an object: every way it fails leads to the
    file path. *)
Lemma untyped_fetch_after_socket_failure (w : Untyped.World) (now : Z) :
  (forall o, Untyped.sock w
             <> Some (Untyped.SockEnded (Untyped.Json (Untyped.PObject o)))) ->
  fetch w now
  = try_catch
      (state <- Untyped.readFromFile w ;; validate now state)
      (fun _ => Ok (Api.toObject (StateReader.getDefaultState now))).
Proof.
  intro H. unfold Untyped.readBiometricState, Untyped.readFromSocket.
  destruct (Untyped.sock w) as [[[[ | o] | ] | m | ] | ]; try reflexivity.
  exfalso. apply (H o). reflexivity.
Qed.

Lemma untyped_fetch_file (w : Untyped.World) (now : Z) (o : Api.StateObject) :
  (forall o', Untyped.sock w
              <> Some (Untyped.SockEnded (Untyped.Json (Untyped.PObject o')))) ->
  Untyped.file w = Some (Untyped.Json (Untyped.PObject o)) ->
  fetch w now = validate now (Untyped.PObject o).
Proof.
  intros Hs Hf. rewrite (untyped_fetch_after_socket_failure w now Hs).
  unfold Untyped.readFromFile. rewrite Hf. cbn [bind].
  destruct (untyped_validate_object now o) as [E | [E _]]; rewrite E;
    reflexivity.
Qed.

Lemma untyped_fetch_default (w : Untyped.World) (now : Z) :
  (forall o, Untyped.sock w
             <> Some (Untyped.SockEnded (Untyped.Json (Untyped.PObject o)))) ->
  (forall o, Untyped.file w <> Some (Untyped.Json (Untyped.PObject o))) ->
  fetch w now = Ok (Api.toObject (StateReader.getDefaultState now)).
Proof.
  intros Hs Hf. rewrite (untyped_fetch_after_socket_failure w now Hs).
  unfold Untyped.readFromFile.
  destruct (Untyped.file w) as [[[ | o] | ] | ]; try reflexivity.
  exfalso. apply (Hf o). reflexivity.
Qed.

Lemma untyped_validate_result (now : Z) (o : Api.StateObject) :
  exists r,
    validate now (Untyped.PObject o) = Ok r /\
    (r = Api.toObject (StateReader.getDefaultState now) \/
     (r = o /\
      Untyped.stale now (Api.o_timestamp r) = false /\
      Untyped.isDaemonAlive process_exists (Api.o_daemon_pid r) = true)).
Proof.
  destruct (untyped_validate_object now o) as [E | [E [H1 H2]]].
  - eexists. split; [ exact E | now left ].
  - exists o. split; [ exact E | right; repeat split; assumption ].
Qed.

Lemma socket_object_or_not (w : Untyped.World) :
  (exists o, Untyped.sock w
             = Some (Untyped.SockEnded (Untyped.Json (Untyped.PObject o)))) \/
  (forall o, Untyped.sock w
             <> Some (Untyped.SockEnded (Untyped.Json (Untyped.PObject o)))).
Proof.
  destruct (Untyped.sock w) as [[[[ | o] | ] | m | ] | ];
    try (right; intros o' H; discriminate H).
  left. exists o. reflexivity.
Qed.

Lemma file_object_or_not (w : Untyped.World) :
  (exists o, Untyped.file w = Some (Untyped.Json (Untyped.PObject o))) \/
  (forall o, Untyped.file w <> Some (Untyped.Json (Untyped.PObject o))).
Proof.
  destruct (Untyped.file w) as [[[ | o] | ] | ];
    try (right; intros o' H; discriminate H).
  left. exists o. reflexivity.
Qed.

(** What the fetch returns, and where it comes from. *)
Lemma untyped_fetch_cases (w : Untyped.World) (now : Z) :
  exists r,
    fetch w now = Ok r /\
    (r = Api.toObject (StateReader.getDefaultState now) \/
     ((Untyped.sock w
       = Some (Untyped.SockEnded (Untyped.Json (Untyped.PObject r))) \/
       Untyped.file w = Some (Untyped.Json (Untyped.PObject r))) /\
      Untyped.stale now (Api.o_timestamp r) = false /\
      Untyped.isDaemonAlive process_exists (Api.o_daemon_pid r) = true)).
Proof.
  destruct (socket_object_or_not w) as [[o Hs] | Hs].
  - rewrite (untyped_fetch_socket w now o Hs).
    destruct (untyped_validate_result now o) as [r [E [Hd | [Hr Hok]]]];
      exists r; (split; [ exact E | ]).
    + now left.
    + right. subst r. split; [ left; exact Hs | exact Hok ].
  - destruct (file_object_or_not w) as [[o Hf] | Hf].
    + rewrite (untyped_fetch_file w now o Hs Hf).
      destruct (untyped_validate_result now o) as [r [E [Hd | [Hr Hok]]]];
        exists r; (split; [ exact E | ]).
      * now left.
      * right. subst r. split; [ right; exact Hf | exact Hok ].
    + rewrite (untyped_fetch_default w now Hs Hf).
      eexists. split; [ reflexivity | now left ].
Qed.

Lemma default_wellFormed (now : Z) :
  Facts.wellFormed (Api.toObject (StateReader.getDefaultState now)).
Proof.
  unfold Facts.wellFormed. cbn.
  repeat split; eexists; try reflexivity;
    repeat split; try reflexivity;
    try (apply leb_le; vm_compute; reflexivity).
  simpl. tauto.
Qed.

(** C2 (amended). Whenever the read of the socket ends, errors or times
    out, the fetch returns a value and never raises.  When the socket path
    yields no object (socket absent, connection error, timeout, text that is
    not JSON, or the document null) the answer is the one of the file path:
    the validation of the file's object, or the default record (stress index
    0, flow state UNKNOWN, confidence 0) when the file is absent, is not
    JSON or holds null.  What the caller receives is the default record or
    the object parsed from the socket or the file, returned as it is: its
    properties are not checked, so it is a well-formed State Record when the
    stored documents are, and the default record is one. *)
Theorem fetch_absorbs_failures_without_checking_fields
    (w : Untyped.World) (now : Z) :
  (exists r, fetch w now = Ok r) /\
  ((forall o, Untyped.sock w
              <> Some (Untyped.SockEnded (Untyped.Json (Untyped.PObject o)))) ->
   (forall o, Untyped.file w = Some (Untyped.Json (Untyped.PObject o)) ->
      fetch w now = validate now (Untyped.PObject o)) /\
   ((forall o, Untyped.file w <> Some (Untyped.Json (Untyped.PObject o))) ->
      fetch w now = Ok (Api.toObject (StateReader.getDefaultState now)))) /\
  (forall r, fetch w now = Ok r ->
     r = Api.toObject (StateReader.getDefaultState now) \/
     Untyped.sock w
     = Some (Untyped.SockEnded (Untyped.Json (Untyped.PObject r))) \/
     Untyped.file w = Some (Untyped.Json (Untyped.PObject r))) /\
  (Api.o_stress_index (Api.toObject (StateReader.getDefaultState now))
   = Some 0%Qc /\
   Api.o_flow_state (Api.toObject (StateReader.getDefaultState now))
   = Some "UNKNOWN" /\
   Api.o_confidence (Api.toObject (StateReader.getDefaultState now))
   = Some 0%Qc) /\
  Facts.wellFormed (Api.toObject (StateReader.getDefaultState now)) /\
  (forall r, fetch w now = Ok r ->
     (forall o, Untyped.sock w
                = Some (Untyped.SockEnded (Untyped.Json (Untyped.PObject o))) ->
                Facts.wellFormed o) ->
     (forall o, Untyped.file w = Some (Untyped.Json (Untyped.PObject o)) ->
                Facts.wellFormed o) ->
     Facts.wellFormed r).
Proof.
  destruct (untyped_fetch_cases w now) as [r0 [Hr0 Hfrom]].
  assert (Hsrc : forall r, fetch w now = Ok r ->
            r = Api.toObject (StateReader.getDefaultState now) \/
            Untyped.sock w
            = Some (Untyped.SockEnded (Untyped.Json (Untyped.PObject r))) \/
            Untyped.file w = Some (Untyped.Json (Untyped.PObject r))).
  { intros r Hr. rewrite Hr0 in Hr. injection Hr as <-.
    destruct Hfrom as [H | [H _]]; [ now left | right; exact H ]. }
  split; [ exists r0; exact Hr0 | ].
  split.
  { intro Hs. split.
    - intros o Hf. exact (untyped_fetch_file w now o Hs Hf).
    - intro Hf. exact (untyped_fetch_default w now Hs Hf). }
  split; [ exact Hsrc | ].
  split.
  { cbn. rewrite dec_zero. repeat split; reflexivity. }
  split; [ apply default_wellFormed | ].
  intros r Hr Hsock Hfile.
  destruct (Hsrc r Hr) as [-> | [H | H]];
    [ apply default_wellFormed | now apply Hsock | now apply Hfile ].
Qed.

End UntypedFetchFacts.

Lemma fetch_absorbs_failures_without_checking_fields_witness :
  Untyped.readBiometricState (onlyProcess 4242) nullWorld 1700000000000
  = Ok (Api.toObject (StateReader.getDefaultState 1700000000000))
  /\
  Untyped.readBiometricState (onlyProcess 4242) (Untyped.ofEnv liveKeystroke)
    1700000001000
  = Ok (Api.toObject (keystrokeRecord 1700000000000 4242)).
Proof.
  split.
  - apply (proj1 (proj2 (fetch_absorbs_failures_without_checking_fields
                           (onlyProcess 4242) nullWorld 1700000000000))).
    + intros o H. discriminate H.
    + intros o H. discriminate H.
  - destruct (proj1 (proj2 (fetch_absorbs_failures_without_checking_fields
                              (onlyProcess 4242) (Untyped.ofEnv liveKeystroke)
                              1700000001000))) as [Hfile _].
    + intros o H. discriminate H.
    + rewrite (Hfile _ eq_refl). reflexivity.
Defined.

(** The state file holds an object with nothing but the pid of a running
    process: the fetch returns that object, which has no stress index. *)
Lemma fetch_returns_incomplete_object :
  Untyped.readBiometricState (onlyProcess 4242) pidOnlyFile 1700000000000
  = Ok pidOnly
  /\ ~ Facts.wellFormed pidOnly.
Proof.
  split; [ reflexivity | ].
  intros [[x [H _]] _]. discriminate H.
Qed.

(** ** The Normalizer *)

Lemma hrvToStress_levels (hrv : num) :
  In (Api.hrvToStress hrv) Api.stressLevels.
Proof.
  unfold Api.hrvToStress, Api.stressLevels.
  repeat (destruct (geb _ _); [ simpl; tauto | ]).
  simpl; tauto.
Qed.

Lemma heartRateToStress_levels (hr : num) :
  In (Api.heartRateToStress hr) Api.stressLevels.
Proof.
  unfold Api.heartRateToStress, Api.stressLevels.
  repeat (destruct (ltb _ _); [ simpl; tauto | ]).
  simpl; tauto.
Qed.

(** Rounding to two decimals leaves every level as it is. *)
Lemma round2_level (x : num) : In x Api.stressLevels -> round2 x = x.
Proof.
  unfold Api.stressLevels. simpl.
  intros [<- | [<- | [<- | [<- | [<- | [<- | [<- | [<- | [<- | [<- | []]]]]]]]]]];
    qc_eq.
Qed.

Lemma level_in_unit (x : num) :
  In x Api.stressLevels -> (0 <= x)%Qc /\ (x <= 1)%Qc.
Proof.
  unfold Api.stressLevels. simpl.
  intros [<- | [<- | [<- | [<- | [<- | [<- | [<- | [<- | [<- | [<- | []]]]]]]]]]];
    split; apply leb_le; vm_compute; reflexivity.
Qed.

(** The stress the endpoint computes before rounding (lines 68-76). *)
Lemma buildState_stress (data : Mobile.MobileBiometricData) (now : Z) :
  exists x,
    In x Api.stressLevels /\
    stress_index (Api.buildState data now) = round2 x /\
    flow_state (Api.buildState data now) = Api.stressToFlowState x.
Proof.
  unfold Api.buildState. simpl.
  destruct (Mobile.hrv data) as [h | ].
  - exists (Api.hrvToStress h). split; [ apply hrvToStress_levels | now split ].
  - destruct (Mobile.heart_rate data) as [hr | ].
    + exists (Api.heartRateToStress hr).
      split; [ apply heartRateToStress_levels | now split ].
    + exists (dec 0.5). split; [ | now split ].
      unfold Api.stressLevels. simpl. tauto.
Qed.

Lemma buildState_consistent (data : Mobile.MobileBiometricData) (now : Z) :
  flow_state (Api.buildState data now)
  = Api.stressToFlowState (stress_index (Api.buildState data now)).
Proof.
  destruct (buildState_stress data now) as [x [Hx [Hs Hf]]].
  rewrite Hs, Hf, (round2_level x Hx). reflexivity.
Qed.

Lemma buildState_stress_in_unit (data : Mobile.MobileBiometricData) (now : Z) :
  (0 <= stress_index (Api.buildState data now))%Qc /\
  (stress_index (Api.buildState data now) <= 1)%Qc.
Proof.
  destruct (buildState_stress data now) as [x [Hx [Hs _]]].
  rewrite Hs, (round2_level x Hx). apply level_in_unit. exact Hx.
Qed.

Lemma buildState_confidence (data : Mobile.MobileBiometricData) (now : Z) :
  confidence (Api.buildState data now)
  = if truthy (Mobile.hrv data) then dec 0.9 else dec 0.6.
Proof. reflexivity. Qed.

Lemma buildState_confidence_in_unit
    (data : Mobile.MobileBiometricData) (now : Z) :
  (0 <= confidence (Api.buildState data now))%Qc /\
  (confidence (Api.buildState data now) <= 1)%Qc.
Proof.
  rewrite buildState_confidence.
  destruct (truthy (Mobile.hrv data));
    split; apply leb_le; vm_compute; reflexivity.
Qed.

Lemma buildState_pid (data : Mobile.MobileBiometricData) (now : Z) :
  daemon_pid (Api.buildState data now) = -1.
Proof. reflexivity. Qed.

(** An accepted sample is written to the state file as [buildState] made
    it; a rejected or failed request leaves the environment as it was. *)
Lemma handleBiometricsPost_updated
    (data : Mobile.MobileBiometricData) (now : Z) (env env' : Env)
    (si : num) (fs src : string) :
  Api.handleBiometricsPost data now env = (Api.Updated si fs src, env') ->
  state_file env' = Some (Parsed (Api.buildState data now)) /\
  state_sock env' = state_sock env /\
  si = stress_index (Api.buildState data now) /\
  fs = flow_state (Api.buildState data now) /\
  src = source (Api.buildState data now).
Proof.
  unfold Api.handleBiometricsPost.
  destruct (negb (truthy (Mobile.hrv data)) &&
            negb (truthy (Mobile.heart_rate data))); [ discriminate | ].
  unfold Api.writeStateFile, Api.pushToSocket.
  destruct (writable env); simpl; [ | discriminate ].
  intro H. injection H as <- <- <- <-. simpl. repeat split; reflexivity.
Qed.

Lemma handleBiometricsPost_accepts
    (data : Mobile.MobileBiometricData) (now : Z) (env : Env) :
  truthy (Mobile.hrv data) || truthy (Mobile.heart_rate data) = true ->
  writable env = true ->
  Api.handleBiometricsPost data now env =
  (Api.Updated (stress_index (Api.buildState data now))
               (flow_state (Api.buildState data now))
               (source (Api.buildState data now)),
   {| state_sock := state_sock env;
      state_file := Some (Parsed (Api.buildState data now));
      writable := true |}).
Proof.
  intros Ht Hw. unfold Api.handleBiometricsPost.
  rewrite <- negb_orb, Ht. simpl.
  unfold Api.writeStateFile. rewrite Hw. reflexivity.
Qed.

(** ** The Precept Engine *)

Section PreceptFacts.

Variable numberToString : num -> string.

Local Abbreviation derive := (Plugin.derive numberToString).
Local Abbreviation directives := (Plugin.directives numberToString).

(** One evaluation appends what the rules fire to the array it finds. *)
Lemma derive_precepts (s : BiometricState) (ctx : Plugin.Context) :
  Plugin.precepts (derive s ctx) = (Plugin.precepts ctx ++ Plugin.fired s)%list.
Proof.
  unfold Plugin.derive, Plugin.fired, Plugin.rule1, Plugin.rule2, Plugin.precepts.
  destruct (Plugin.systemPrecepts ctx) as [l | ];
    destruct (gtb (stress_index s) (dec 0.7) && gtb (confidence s) (dec 0.5));
    destruct (String.eqb (flow_state s) "DEEP_FLOW"
              && gtb (confidence s) (dec 0.5));
    simpl; rewrite ?app_nil_r, <- ?app_assoc; reflexivity.
Qed.

Lemma derive_is_array (s : BiometricState) (ctx : Plugin.Context) :
  Plugin.systemPrecepts (derive s ctx) = Some (Plugin.precepts (derive s ctx)).
Proof.
  unfold Plugin.derive, Plugin.precepts.
  destruct (Plugin.systemPrecepts ctx) as [l | ];
    destruct (gtb (stress_index s) (dec 0.7) && gtb (confidence s) (dec 0.5));
    destruct (String.eqb (flow_state s) "DEEP_FLOW"
              && gtb (confidence s) (dec 0.5));
    reflexivity.
Qed.

Lemma directives_fired (s : BiometricState) : directives s = Plugin.fired s.
Proof. unfold Plugin.directives. rewrite derive_precepts. reflexivity. Qed.

Lemma low_confidence_rules (s : BiometricState) :
  (confidence s <= dec 0.5)%Qc -> Plugin.rule1 s = false /\ Plugin.rule2 s = false.
Proof.
  intro H. unfold Plugin.rule1, Plugin.rule2. rewrite (gtb_le_false _ _ H).
  rewrite !andb_false_r. split; reflexivity.
Qed.

Lemma derive_note_unfired (s : BiometricState) (ctx : Plugin.Context) :
  Plugin.rule1 s = false -> Plugin.rule2 s = false ->
  Plugin.biometricNote (derive s ctx) = Plugin.biometricNote ctx.
Proof.
  unfold Plugin.rule1, Plugin.rule2, Plugin.derive. intros -> ->.
  destruct (Plugin.systemPrecepts ctx); reflexivity.
Qed.

(** C4. A record whose confidence is at most 0.5 fires no rule, whatever
    its stress index and flow state: the evaluation pushes no directive (the
    directive array is the one found, empty when there was none), so neither
    CONCISE_MODE nor NO_INTERRUPT is emitted, and the note is untouched. *)
Theorem low_confidence_emits_no_directive
    (s : BiometricState) (ctx : Plugin.Context) :
  (confidence s <= dec 0.5)%Qc ->
  directives s = [] /\
  ~ In "CONCISE_MODE" (directives s) /\
  ~ In "NO_INTERRUPT" (directives s) /\
  Plugin.precepts (derive s ctx) = Plugin.precepts ctx /\
  Plugin.biometricNote (derive s ctx) = Plugin.biometricNote ctx.
Proof.
  intro H. destruct (low_confidence_rules s H) as [H1 H2].
  assert (Hd : directives s = []).
  { rewrite directives_fired. unfold Plugin.fired. rewrite H1, H2. reflexivity. }
  rewrite Hd. repeat split; try (intros []).
  - rewrite derive_precepts. unfold Plugin.fired. rewrite H1, H2.
    apply app_nil_r.
  - apply derive_note_unfired; assumption.
Qed.

(** C5 (amended). An evaluation starts from an empty directive set only
    when the context carries no directive array; otherwise it appends to the
    array it finds.  So one evaluation yields the prior directives followed
    by the directives of the record, a second evaluation of the same record
    appends them once more, and evaluating twice equals evaluating once
    exactly when the record fires no rule. *)
Theorem evaluation_appends_to_prior_directives
    (s : BiometricState) (ctx : Plugin.Context) :
  directives s = Plugin.fired s /\
  Plugin.precepts (derive s ctx) = (Plugin.precepts ctx ++ directives s)%list /\
  Plugin.precepts (derive s (derive s ctx))
  = ((Plugin.precepts ctx ++ directives s) ++ directives s)%list /\
  (Plugin.precepts (derive s (derive s ctx)) = Plugin.precepts (derive s ctx)
   <-> directives s = []).
Proof.
  rewrite directives_fired.
  split; [ reflexivity | ].
  split; [ apply derive_precepts | ].
  split; [ rewrite !derive_precepts; reflexivity | ].
  rewrite !derive_precepts. split; intro H.
  - apply (app_inv_head (Plugin.precepts ctx ++ Plugin.fired s)%list).
    rewrite app_nil_r. exact H.
  - rewrite H, !app_nil_r. reflexivity.
Qed.

End PreceptFacts.

Lemma low_confidence_emits_no_directive_witness :
  Plugin.directives printSample (stressed (dec 0.5)) = [] /\
  Plugin.directives printSample (deepFlow (dec 0.5)) = [].
Proof.
  split.
  - apply (low_confidence_emits_no_directive printSample
             (stressed (dec 0.5)) Plugin.fresh).
    apply leb_le. vm_compute. reflexivity.
  - apply (low_confidence_emits_no_directive printSample
             (deepFlow (dec 0.5)) Plugin.fresh).
    apply leb_le. vm_compute. reflexivity.
Defined.

(** Evaluating a stressed, confident record twice on the same context
    leaves CONCISE_MODE twice; once leaves it once. *)
Lemma reevaluation_duplicates_directive :
  Plugin.precepts
    (Plugin.derive printSample (stressed (dec 0.9))
       (Plugin.derive printSample (stressed (dec 0.9)) Plugin.fresh))
  = ["CONCISE_MODE"; "CONCISE_MODE"]
  /\
  Plugin.precepts (Plugin.derive printSample (stressed (dec 0.9)) Plugin.fresh)
  = ["CONCISE_MODE"]
  /\
  ["CONCISE_MODE"; "CONCISE_MODE"] <> ["CONCISE_MODE"].
Proof.
  split; [ vm_compute; reflexivity | ].
  split; [ vm_compute; reflexivity | discriminate ].
Qed.

(** ** Mobile ingestion *)

(** C8 (amended). A sample with a heart rate of 95 bpm and no HRV is
    accepted and normalized to stress index 0.75 (the band below 100),
    confidence 0.6 and flow state STRESSED. *)
Theorem heart_rate_95_normalized (now : Z) :
  Api.heartRateToStress (dec 95) = dec 0.75 /\
  stress_index (Api.buildState heartRate95 now) = dec 0.75 /\
  confidence (Api.buildState heartRate95 now) = dec 0.6 /\
  flow_state (Api.buildState heartRate95 now) = "STRESSED" /\
  fst (Api.handleBiometricsPost heartRate95 now noSignal)
  = Api.Updated (dec 0.75) "STRESSED" "mobile_healthkit".
Proof.
  assert (Hs : stress_index (Api.buildState heartRate95 now) = dec 0.75)
    by qc_eq.
  assert (Hf : flow_state (Api.buildState heartRate95 now) = "STRESSED")
    by (vm_compute; reflexivity).
  split; [ qc_eq | ].
  split; [ exact Hs | ].
  split; [ reflexivity | ].
  split; [ exact Hf | ].
  rewrite handleBiometricsPost_accepts by reflexivity.
  cbn [fst]. rewrite Hs, Hf. reflexivity.
Qed.

(** At 95 bpm the stress index is 0.75, which is not 0.9. *)
Lemma heart_rate_95_stress_is_not_090 :
  stress_index (Api.buildState heartRate95 1700000000000) = dec 0.75 /\
  dec 0.75 <> dec 0.9.
Proof. split; [ qc_eq | qc_neq ]. Qed.

(** When an HRV value is present the stress index comes from it, whatever
    the heart rate. *)
Lemma hrv_takes_precedence
    (data : Mobile.MobileBiometricData) (now : Z) (h : num) :
  Mobile.hrv data = Some h ->
  stress_index (Api.buildState data now) = Api.hrvToStress h.
Proof.
  intro H. unfold Api.buildState. simpl. rewrite H.
  apply round2_level, hrvToStress_levels.
Qed.

Lemma heart_rate_fallback
    (data : Mobile.MobileBiometricData) (now : Z) (hr : num) :
  Mobile.hrv data = None -> Mobile.heart_rate data = Some hr ->
  stress_index (Api.buildState data now) = Api.heartRateToStress hr /\
  confidence (Api.buildState data now) = dec 0.6.
Proof.
  intros H1 H2. unfold Api.buildState. simpl. rewrite H1, H2. simpl.
  split; [ apply round2_level, heartRateToStress_levels | reflexivity ].
Qed.

Lemma truthy_nonzero (h : num) : h <> 0%Qc -> truthy (Some h) = true.
Proof.
  intro H. unfold truthy. destruct (Qeq_bool h 0) eqn:E; [ | reflexivity ].
  exfalso. apply H. apply Qc_is_canon. apply Qeq_bool_iff. exact E.
Qed.

Lemma hrv_confidence
    (data : Mobile.MobileBiometricData) (now : Z) (h : num) :
  Mobile.hrv data = Some h -> h <> 0%Qc ->
  confidence (Api.buildState data now) = dec 0.9.
Proof.
  intros H Hnz. rewrite buildState_confidence, H, (truthy_nonzero h Hnz).
  reflexivity.
Qed.

(** C9 (the code at the failing input). The sample with an HRV of 0 and a
    heart rate of 72 is accepted; its stress index is the one of the HRV
    value, 0.95, and its confidence is 0.6, the one of heart-rate records. *)
Theorem hrv_zero_gets_heart_rate_confidence (now : Z) :
  stress_index (Api.buildState hrvZero now) = Api.hrvToStress (dec 0) /\
  Api.hrvToStress (dec 0) = dec 0.95 /\
  Api.heartRateToStress (dec 72) = dec 0.5 /\
  confidence (Api.buildState hrvZero now) = dec 0.6 /\
  fst (Api.handleBiometricsPost hrvZero now noSignal)
  = Api.Updated (dec 0.95) "STRESSED" "mobile_healthkit".
Proof.
  assert (Hs : stress_index (Api.buildState hrvZero now) = dec 0.95) by qc_eq.
  assert (Hf : flow_state (Api.buildState hrvZero now) = "STRESSED")
    by (vm_compute; reflexivity).
  split; [ apply hrv_takes_precedence; reflexivity | ].
  split; [ qc_eq | ].
  split; [ qc_eq | ].
  split; [ reflexivity | ].
  rewrite handleBiometricsPost_accepts by reflexivity.
  cbn [fst]. rewrite Hs, Hf. reflexivity.
Qed.

(** ** Range of the delivered values *)

(** C3 (amended). Nothing in the pipeline clamps: the Validator returns a
    record that is fresh and whose producer runs exactly as it was read,
    whatever its stress index and confidence.  The values the Normalizer
    itself produces for a mobile sample always lie in the unit interval. *)
Theorem validator_passes_values_unclamped :
  (forall (process_exists : Z -> bool) (now : Z) (s : BiometricState),
      now - timestamp s <= 60000 ->
      0 < daemon_pid s -> process_exists (daemon_pid s) = true ->
      StateReader.validateState process_exists now s = s) /\
  (forall (data : Mobile.MobileBiometricData) (now : Z),
      (0 <= stress_index (Api.buildState data now))%Qc /\
      (stress_index (Api.buildState data now) <= 1)%Qc /\
      (0 <= confidence (Api.buildState data now))%Qc /\
      (confidence (Api.buildState data now) <= 1)%Qc).
Proof.
  split.
  - intros process_exists now s Hage Hpos Hex.
    apply validateState_trusted; [ exact Hage | ].
    apply isDaemonAlive_true. split; assumption.
  - intros data now.
    destruct (buildState_stress_in_unit data now) as [H1 H2].
    destruct (buildState_confidence_in_unit data now) as [H3 H4].
    repeat split; assumption.
Qed.

Lemma validator_passes_values_unclamped_witness :
  StateReader.validateState (onlyProcess 4242) 1700000001000
    (rawRecord 1700000000000 4242)
  = rawRecord 1700000000000 4242.
Proof.
  apply (proj1 validator_passes_values_unclamped).
  - simpl. lia.
  - simpl. lia.
  - reflexivity.
Defined.

(** A fresh record of a running producer with stress index 1.5 and
    confidence -0.2 is fetched as it is. *)
Lemma out_of_range_record_is_delivered_raw :
  StateReader.readBiometricState (onlyProcess 4242)
    {| state_sock := None;
       state_file := Some (Parsed (rawRecord 1700000000000 4242));
       writable := true |}
    1700000001000
  = Ok (rawRecord 1700000000000 4242)
  /\ leb (stress_index (rawRecord 1700000000000 4242)) (dec 1) = false
  /\ leb (dec 0) (confidence (rawRecord 1700000000000 4242)) = false.
Proof.
  split; [ reflexivity | split; vm_compute; reflexivity ].
Qed.

(** ** Consistency of flow state and stress index *)

Section SimulateFacts.

Variable parseFloat : string -> option num.
Variable pid : Z.
Variable toUpperCase : string -> string.
Variable inherited : string -> bool.

Local Abbreviation simulate :=
  (Simulate.simulate parseFloat pid toUpperCase inherited).

Lemma in_unit_not_rejected (x : num) :
  (0 <= x)%Qc -> (x <= 1)%Qc -> ltb x (dec 0) || gtb x (dec 1) = false.
Proof.
  intros H0 H1. apply orb_false_iff. split.
  - unfold ltb. replace (dec 0) with 0%Qc by qc_eq.
    apply leb_le in H0. unfold leb in H0. rewrite H0. reflexivity.
  - apply gtb_le_false. replace (dec 1) with 1%Qc by qc_eq. exact H1.
Qed.

(** The record the command writes when its options are valid: the stress
    index is the one of the --stress flag, or else of the preset, or else
    0.5; the flow state is the upper-case form of the --flow flag, or else
    the one of the preset, or else NORMAL. *)
Lemma simulate_written_as_given
    (options : Simulate.SimulateOptions) (now : Z) (env : Env)
    (x0 sx : num) (f0 sf : string) :
  (Simulate.given (Simulate.preset options) = None /\
   x0 = dec 0.5 /\ f0 = "NORMAL"
   \/
   exists name,
     Simulate.given (Simulate.preset options) = Some name /\
     Simulate.lookup name Simulate.PRESETS = Some (x0, f0)) ->
  (Simulate.given (Simulate.stress options) = None /\ sx = x0
   \/
   exists text,
     Simulate.given (Simulate.stress options) = Some text /\
     parseFloat text = Some sx /\ (0 <= sx)%Qc /\ (sx <= 1)%Qc) ->
  (Simulate.given (Simulate.flow options) = None /\ sf = f0
   \/
   exists text,
     Simulate.given (Simulate.flow options) = Some text /\
     sf = toUpperCase text /\
     Simulate.includes Simulate.validStates sf = true) ->
  writable env = true ->
  simulate options now env
  = Simulate.Written
      {| stress_index := sx; flow_state := sf; timestamp := now;
         ttl_seconds := 300; daemon_pid := pid; confidence := dec 1.0;
         source := "simulation" |}
      {| state_sock := state_sock env;
         state_file :=
           Some (Parsed
                   {| stress_index := sx; flow_state := sf; timestamp := now;
                      ttl_seconds := 300; daemon_pid := pid;
                      confidence := dec 1.0; source := "simulation" |});
         writable := true |}.
Proof.
  intros Hbase Hstress Hflow Hw. unfold Simulate.simulate.
  assert (Epre :
    match Simulate.given (Simulate.preset options) with
    | Some name =>
        match Simulate.lookup name Simulate.PRESETS with
        | Some (stress_index, flow_state) =>
            Ok (Some stress_index, Some flow_state)
        | None =>
            if inherited name then Ok (None, None)
            else Throw ("Unknown preset: " ++ name)
        end
    | None => Ok (Some (dec 0.5), Some "NORMAL")
    end = Ok (Some x0, Some f0)).
  { destruct Hbase as [[-> [-> ->]] | [name [-> ->]]]; reflexivity. }
  rewrite Epre. cbn [bind].
  assert (Estress :
    match Simulate.given (Simulate.stress options) with
    | Some text =>
        match parseFloat text with
        | Some x =>
            if ltb x (dec 0) || gtb x (dec 1)
            then Throw "Stress must be a number between 0.0 and 1.0"
            else Ok (Some x, Some f0)
        | None => Throw "Stress must be a number between 0.0 and 1.0"
        end
    | None => Ok (Some x0, Some f0)
    end = Ok (Some sx, Some f0)).
  { destruct Hstress as [[-> ->] | [text [-> [-> [H0 H1]]]]];
      [ reflexivity | ].
    rewrite (in_unit_not_rejected sx H0 H1). reflexivity. }
  rewrite Estress. cbn [bind].
  assert (Eflow :
    match Simulate.given (Simulate.flow options) with
    | Some text =>
        if negb (Simulate.includes Simulate.validStates (toUpperCase text))
        then Throw ("Invalid flow state: " ++ text)
        else Ok (Some sx, Some (toUpperCase text))
    | None => Ok (Some sx, Some f0)
    end = Ok (Some sx, Some sf)).
  { destruct Hflow as [[-> ->] | [text [-> [-> Hv]]]]; [ reflexivity | ].
    rewrite Hv. reflexivity. }
  rewrite Eflow. unfold Api.writeStateFile. rewrite Hw. reflexivity.
Qed.

End SimulateFacts.

(** C7 (amended). Every record of the mobile ingestion endpoint carries the
    flow state that the threshold mapping gives for its stress index.  The
    simulate command does not use the mapping.  A preset alone writes the
    stress index and flow state of its own entry of the table, which agree
    with the mapping for high-stress, deep-flow and normal, as do the values
    written without options.  A valid --stress flag replaces the stress
    index only and a valid --flow flag replaces the flow state only, by its
    upper-case form, whatever the preset and the other flag. *)
Theorem mobile_flow_state_follows_mapping :
  (forall (data : Mobile.MobileBiometricData) (now : Z),
      flow_state (Api.buildState data now)
      = Api.stressToFlowState (stress_index (Api.buildState data now))) /\
  (forall parseFloat pid toUpperCase inherited name x f now env,
      name <> "" ->
      Simulate.lookup name Simulate.PRESETS = Some (x, f) ->
      writable env = true ->
      exists env',
        Simulate.simulate parseFloat pid toUpperCase inherited
          (presetOnly name) now env
        = Simulate.Written
            {| stress_index := x; flow_state := f; timestamp := now;
               ttl_seconds := 300; daemon_pid := pid; confidence := dec 1.0;
               source := "simulation" |} env') /\
  (forall parseFloat pid toUpperCase inherited name now env,
      In name ["high-stress"; "deep-flow"; "normal"] ->
      writable env = true ->
      exists st env',
        Simulate.simulate parseFloat pid toUpperCase inherited
          (presetOnly name) now env
        = Simulate.Written st env' /\
        flow_state st = Api.stressToFlowState (stress_index st)) /\
  (forall parseFloat pid toUpperCase inherited now env,
      writable env = true ->
      exists st env',
        Simulate.simulate parseFloat pid toUpperCase inherited
          {| Simulate.preset := None; Simulate.stress := None;
             Simulate.flow := None |} now env
        = Simulate.Written st env' /\
        flow_state st = Api.stressToFlowState (stress_index st)) /\
  (forall parseFloat pid toUpperCase inherited options now env x0 f0 sx sf,
      (Simulate.given (Simulate.preset options) = None /\
       x0 = dec 0.5 /\ f0 = "NORMAL"
       \/
       exists name,
         Simulate.given (Simulate.preset options) = Some name /\
         Simulate.lookup name Simulate.PRESETS = Some (x0, f0)) ->
      (Simulate.given (Simulate.stress options) = None /\ sx = x0
       \/
       exists text,
         Simulate.given (Simulate.stress options) = Some text /\
         parseFloat text = Some sx /\ (0 <= sx)%Qc /\ (sx <= 1)%Qc) ->
      (Simulate.given (Simulate.flow options) = None /\ sf = f0
       \/
       exists text,
         Simulate.given (Simulate.flow options) = Some text /\
         sf = toUpperCase text /\
         Simulate.includes Simulate.validStates sf = true) ->
      writable env = true ->
      exists env',
        Simulate.simulate parseFloat pid toUpperCase inherited options now env
        = Simulate.Written
            {| stress_index := sx; flow_state := sf; timestamp := now;
               ttl_seconds := 300; daemon_pid := pid; confidence := dec 1.0;
               source := "simulation" |} env').
Proof.
  assert (Hpreset :
    forall parseFloat pid toUpperCase inherited name x f now env,
      name <> "" ->
      Simulate.lookup name Simulate.PRESETS = Some (x, f) ->
      writable env = true ->
      exists env',
        Simulate.simulate parseFloat pid toUpperCase inherited
          (presetOnly name) now env
        = Simulate.Written
            {| stress_index := x; flow_state := f; timestamp := now;
               ttl_seconds := 300; daemon_pid := pid; confidence := dec 1.0;
               source := "simulation" |} env').
  { intros parseFloat pid toUpperCase inherited name x f now env Hne Hl Hw.
    eexists.
    apply (simulate_written_as_given parseFloat pid toUpperCase inherited
             (presetOnly name) now env x x f f).
    - right. exists name. split; [ | exact Hl ].
      unfold presetOnly, Simulate.given. cbn [Simulate.preset].
      destruct (String.eqb_spec name ""); [ contradiction | reflexivity ].
    - left. split; reflexivity.
    - left. split; reflexivity.
    - exact Hw. }
  split; [ exact buildState_consistent | ].
  split; [ exact Hpreset | ].
  split; [ | split ].
  - intros parseFloat pid toUpperCase inherited name now env Hin Hw.
    simpl in Hin.
    destruct Hin as [<- | [<- | [<- | []]]].
    + destruct (Hpreset parseFloat pid toUpperCase inherited "high-stress"
                  (dec 0.9) "STRESSED" now env) as [env' H];
        [ discriminate | reflexivity | exact Hw | ].
      eexists. exists env'. split; [ exact H | vm_compute; reflexivity ].
    + destruct (Hpreset parseFloat pid toUpperCase inherited "deep-flow"
                  (dec 0.15) "DEEP_FLOW" now env) as [env' H];
        [ discriminate | reflexivity | exact Hw | ].
      eexists. exists env'. split; [ exact H | vm_compute; reflexivity ].
    + destruct (Hpreset parseFloat pid toUpperCase inherited "normal"
                  (dec 0.5) "NORMAL" now env) as [env' H];
        [ discriminate | reflexivity | exact Hw | ].
      eexists. exists env'. split; [ exact H | vm_compute; reflexivity ].
  - intros parseFloat pid toUpperCase inherited now env Hw.
    eexists. eexists. split.
    + apply (simulate_written_as_given parseFloat pid toUpperCase inherited
               _ now env (dec 0.5) (dec 0.5) "NORMAL" "NORMAL").
      * left. repeat split; reflexivity.
      * left. split; reflexivity.
      * left. split; reflexivity.
      * exact Hw.
    + vm_compute. reflexivity.
  - intros parseFloat pid toUpperCase inherited options now env x0 f0 sx sf
      Hbase Hstress Hflow Hw.
    eexists.
    exact (simulate_written_as_given parseFloat pid toUpperCase inherited
             options now env x0 sx f0 sf Hbase Hstress Hflow Hw).
Qed.

(** A stress flag after a preset leaves the preset's flow state, and a flow
    flag in lower case after a stress flag leaves the stress index. *)
Lemma mobile_flow_state_follows_mapping_witness :
  (exists env',
      Simulate.simulate parseSample 4242 Simulate.asciiToUpperCase
        objectPrototype presetAndStress 1700000000000 noSignal
      = Simulate.Written
          {| stress_index := dec 0.9; flow_state := "DEEP_FLOW";
             timestamp := 1700000000000; ttl_seconds := 300;
             daemon_pid := 4242; confidence := dec 1.0;
             source := "simulation" |} env') /\
  (exists env',
      Simulate.simulate parseSample 4242 Simulate.asciiToUpperCase
        objectPrototype stressAndFlow 1700000000000 noSignal
      = Simulate.Written
          {| stress_index := dec 0.9; flow_state := "CALM";
             timestamp := 1700000000000; ttl_seconds := 300;
             daemon_pid := 4242; confidence := dec 1.0;
             source := "simulation" |} env') /\
  (exists st env',
      Simulate.simulate parseSample 4242 Simulate.asciiToUpperCase
        objectPrototype (presetOnly "normal") 1700000000000 noSignal
      = Simulate.Written st env' /\
      flow_state st = Api.stressToFlowState (stress_index st)).
Proof.
  split; [ | split ].
  - apply (proj2 (proj2 (proj2 (proj2 mobile_flow_state_follows_mapping)))
             parseSample 4242 Simulate.asciiToUpperCase objectPrototype
             presetAndStress 1700000000000 noSignal
             (dec 0.15) "DEEP_FLOW" (dec 0.9) "DEEP_FLOW").
    + right. exists "deep-flow". split; reflexivity.
    + right. exists "0.9". repeat split; try reflexivity;
        apply leb_le; vm_compute; reflexivity.
    + left. split; reflexivity.
    + reflexivity.
  - apply (proj2 (proj2 (proj2 (proj2 mobile_flow_state_follows_mapping)))
             parseSample 4242 Simulate.asciiToUpperCase objectPrototype
             stressAndFlow 1700000000000 noSignal
             (dec 0.5) "NORMAL" (dec 0.9) "CALM").
    + left. repeat split; reflexivity.
    + right. exists "0.9". repeat split; try reflexivity;
        apply leb_le; vm_compute; reflexivity.
    + right. exists "calm". repeat split; reflexivity.
    + reflexivity.
  - apply (proj1 (proj2 (proj2 mobile_flow_state_follows_mapping))).
    + simpl. tauto.
    + reflexivity.
Defined.

(** The calm preset writes stress index 0.2 with flow state CALM, while the
    mapping gives DEEP_FLOW for 0.2. *)
Lemma calm_preset_disagrees_with_mapping :
  Simulate.simulate parseSample 4242 Simulate.asciiToUpperCase objectPrototype
    (presetOnly "calm") 1700000000000 noSignal
  = Simulate.Written
      {| stress_index := dec 0.2; flow_state := "CALM";
         timestamp := 1700000000000; ttl_seconds := 300; daemon_pid := 4242;
         confidence := dec 1.0; source := "simulation" |}
      {| state_sock := None;
         state_file :=
           Some (Parsed
             {| stress_index := dec 0.2; flow_state := "CALM";
                timestamp := 1700000000000; ttl_seconds := 300;
                daemon_pid := 4242; confidence := dec 1.0;
                source := "simulation" |});
         writable := true |}
  /\ Api.stressToFlowState (dec 0.2) = "DEEP_FLOW"
  /\ "CALM" <> "DEEP_FLOW".
Proof.
  split; [ reflexivity | split; [ vm_compute; reflexivity | discriminate ] ].
Qed.

(** ** Mobile records and the Validator *)

Lemma default_confidence_low (now : Z) :
  (confidence (StateReader.getDefaultState now) <= dec 0.5)%Qc.
Proof. apply leb_le. vm_compute. reflexivity. Qed.

Lemma derive_low_confidence
    (numberToString : num -> string) (s : BiometricState)
    (ctx : Plugin.Context) :
  (confidence s <= dec 0.5)%Qc ->
  Plugin.precepts (Plugin.derive numberToString s ctx) = Plugin.precepts ctx.
Proof.
  intro H. rewrite derive_precepts. unfold Plugin.fired.
  destruct (low_confidence_rules s H) as [-> ->]. apply app_nil_r.
Qed.

(** C10. A record accepted by the mobile ingestion endpoint is written to
    the state file with producer id -1.  The Validator replaces it with the
    default record at any later time, so a fetch that finds it in the file
    returns the default record, and the precept hook run on that fetch adds
    no directive. *)
Theorem mobile_record_never_passes_validation
    (process_exists : Z -> bool) (numberToString : num -> string)
    (data : Mobile.MobileBiometricData) (now later : Z) (env env' : Env)
    (si : num) (fs src : string) (ctx : Plugin.Context) :
  Api.handleBiometricsPost data now env = (Api.Updated si fs src, env') ->
  exists st,
    state_file env' = Some (Parsed st) /\
    daemon_pid st = -1 /\
    StateReader.validateState process_exists later st
    = StateReader.getDefaultState later /\
    ((forall s, state_sock env' <> Some (Ended (Parsed s))) ->
     StateReader.readBiometricState process_exists env' later
     = Ok (StateReader.getDefaultState later) /\
     exists ctx',
       Plugin.pre_process numberToString process_exists env' later ctx
       = Ok ctx' /\
       Plugin.precepts ctx' = Plugin.precepts ctx) /\
    Plugin.directives numberToString
      (StateReader.validateState process_exists later st) = [].
Proof.
  intro H. apply handleBiometricsPost_updated in H.
  destruct H as [Hfile _].
  assert (Hv : StateReader.validateState process_exists later
                 (Api.buildState data now)
               = StateReader.getDefaultState later).
  { apply validateState_dead. apply isDaemonAlive_nonpositive.
    rewrite buildState_pid. lia. }
  exists (Api.buildState data now).
  split; [ exact Hfile | ].
  split; [ apply buildState_pid | ].
  split; [ exact Hv | ].
  split.
  - intro Hsock. apply readFromSocket_throws in Hsock.
    destruct Hsock as [m Hs].
    assert (Hr : StateReader.readBiometricState process_exists env' later
                 = Ok (StateReader.getDefaultState later)).
    { rewrite <- Hv. apply (readBiometricState_file _ env' later m); [ exact Hs | ].
      unfold StateReader.readFromFile. rewrite Hfile. reflexivity. }
    split; [ exact Hr | ].
    unfold Plugin.pre_process. rewrite Hr. cbn [bind].
    eexists. split; [ reflexivity | ].
    apply derive_low_confidence, default_confidence_low.
  - rewrite Hv. unfold Plugin.directives.
    rewrite derive_low_confidence by apply default_confidence_low.
    reflexivity.
Qed.

Lemma mobile_record_never_passes_validation_witness :
  Api.handleBiometricsPost hrv90 1700000000000 noSignal
  = (Api.Updated (dec 0.2) "DEEP_FLOW" "mobile_healthkit", afterMobile)
  /\
  StateReader.readBiometricState (onlyProcess 4242) afterMobile 1700000001000
  = Ok (StateReader.getDefaultState 1700000001000)
  /\
  Plugin.pre_process printSample (onlyProcess 4242) afterMobile 1700000001000
    Plugin.fresh
  = Ok {| Plugin.biometrics := Some (StateReader.getDefaultState 1700000001000);
          Plugin.biometricNote := None;
          Plugin.systemPrecepts := Some [] |}.
Proof.
  assert (Hpost : Api.handleBiometricsPost hrv90 1700000000000 noSignal
                  = (Api.Updated (dec 0.2) "DEEP_FLOW" "mobile_healthkit",
                     afterMobile)).
  { assert (Hs : stress_index (Api.buildState hrv90 1700000000000) = dec 0.2)
      by qc_eq.
    assert (Hf : flow_state (Api.buildState hrv90 1700000000000) = "DEEP_FLOW")
      by (vm_compute; reflexivity).
    rewrite handleBiometricsPost_accepts by reflexivity.
    rewrite Hs, Hf. reflexivity. }
  split; [ exact Hpost | ].
  destruct (mobile_record_never_passes_validation (onlyProcess 4242)
              printSample hrv90 1700000000000 1700000001000 noSignal
              afterMobile (dec 0.2) "DEEP_FLOW" "mobile_healthkit"
              Plugin.fresh Hpost)
    as [st [_ [_ [_ [Hfetch _]]]]].
  destruct Hfetch as [Hr _]; [ intros s H; discriminate H | ].
  split; [ exact Hr | ].
  unfold Plugin.pre_process. rewrite Hr. reflexivity.
Defined.

(** ** The default record *)

(** C6 (amended). Every degradation path of the state reader (a stale
    record, a producer that does not run, no parsable record on either
    channel) substitutes the same default record: stress index 0, flow state
    UNKNOWN, confidence 0, ttl 0, producer id -1, source default, timestamp
    now.  The status endpoint has a fallback of its own for a missing state
    file: it agrees on stress index, flow state and producer id, has
    timestamp 0 and source none, and carries no ttl and no confidence. *)
Theorem reader_degradation_paths_share_default
    (process_exists : Z -> bool) (now : Z) :
  StateReader.getDefaultState now
  = {| stress_index := 0%Qc; flow_state := "UNKNOWN"; timestamp := now;
       ttl_seconds := 0; daemon_pid := -1; confidence := 0%Qc;
       source := "default" |} /\
  (forall s, 60000 < now - timestamp s ->
     StateReader.validateState process_exists now s
     = StateReader.getDefaultState now) /\
  (forall s, daemon_pid s <= 0 \/ process_exists (daemon_pid s) = false ->
     StateReader.validateState process_exists now s
     = StateReader.getDefaultState now) /\
  (forall env,
     (forall s, state_sock env <> Some (Ended (Parsed s))) ->
     state_file env = None \/ state_file env = Some Unparsable ->
     StateReader.readBiometricState process_exists env now
     = Ok (StateReader.getDefaultState now)) /\
  (forall env, state_file env = None ->
     Api.readCurrentState env
     = Ok {| Api.o_stress_index := Some 0%Qc;
             Api.o_flow_state := Some "UNKNOWN";
             Api.o_timestamp := Some 0;
             Api.o_ttl_seconds := None;
             Api.o_daemon_pid := Some (-1);
             Api.o_confidence := None;
             Api.o_source := Some "none" |}).
Proof.
  split.
  { unfold StateReader.getDefaultState. rewrite dec_zero. reflexivity. }
  split; [ intros s; apply validateState_stale | ].
  split.
  { intros s H. apply validateState_dead.
    destruct H as [H | H]; [ now apply isDaemonAlive_nonpositive | ].
    destruct (StateReader.isDaemonAlive process_exists (daemon_pid s)) eqn:E;
      [ | reflexivity ].
    apply isDaemonAlive_true in E. destruct E as [_ E]. congruence. }
  split.
  { intros env Hs Hf.
    apply readFromSocket_throws in Hs. destruct Hs as [m Hs].
    apply readFromFile_throws in Hf. destruct Hf as [m' Hf].
    apply (readBiometricState_default _ env now m m'); assumption. }
  intros env H. unfold Api.readCurrentState. rewrite H.
  replace (dec 0) with 0%Qc by qc_eq. reflexivity.
Qed.

Lemma reader_degradation_paths_share_default_witness :
  StateReader.validateState (onlyProcess 4242) 1700000061001
    (keystrokeRecord 1700000000000 4242)
  = StateReader.getDefaultState 1700000061001
  /\
  StateReader.readBiometricState (onlyProcess 4242) noSignal 1700000061001
  = Ok (StateReader.getDefaultState 1700000061001).
Proof.
  split.
  - apply (proj1 (proj2 (reader_degradation_paths_share_default
                           (onlyProcess 4242) 1700000061001))).
    simpl. lia.
  - apply (proj1 (proj2 (proj2 (proj2
             (reader_degradation_paths_share_default
                (onlyProcess 4242) 1700000061001))))).
    + intros s H. discriminate H.
    + left. reflexivity.
Defined.

(** Without a state file the status endpoint answers with a record whose
    source is none, not the default record of the reader. *)
Lemma status_fallback_is_not_the_default :
  Api.readCurrentState noSignal
  = Ok {| Api.o_stress_index := Some (dec 0);
          Api.o_flow_state := Some "UNKNOWN";
          Api.o_timestamp := Some 0;
          Api.o_ttl_seconds := None;
          Api.o_daemon_pid := Some (-1);
          Api.o_confidence := None;
          Api.o_source := Some "none" |}
  /\
  Api.toObject (StateReader.getDefaultState 1700000000000)
  <> {| Api.o_stress_index := Some (dec 0);
        Api.o_flow_state := Some "UNKNOWN";
        Api.o_timestamp := Some 0;
        Api.o_ttl_seconds := None;
        Api.o_daemon_pid := Some (-1);
        Api.o_confidence := None;
        Api.o_source := Some "none" |}.
Proof.
  split; [ reflexivity | ].
  intro H. apply (f_equal Api.o_source) in H. discriminate H.
Qed.

(* ================================================================== *)
(** * Further properties of the code *)

(** ** Order facts on literals *)

Lemma geb_dec_true (x : num) (q : Q) : geb x (dec q) = true -> (q <= x)%Q.
Proof.
  unfold geb, leb, dec. cbn [this Q2Qc]. rewrite Qred_correct.
  apply Qle_bool_iff.
Qed.

Lemma geb_dec_false (x : num) (q : Q) : geb x (dec q) = false -> (x < q)%Q.
Proof.
  unfold geb, leb, dec. cbn [this Q2Qc]. rewrite Qred_correct.
  intro H. apply Qnot_le_lt. intro Hle. apply Qle_bool_iff in Hle. congruence.
Qed.

Lemma ltb_dec_true (x : num) (q : Q) : ltb x (dec q) = true -> (x < q)%Q.
Proof.
  unfold ltb, dec. cbn [this Q2Qc]. rewrite Qred_correct.
  rewrite negb_true_iff.
  intro H. apply Qnot_le_lt. intro Hle. apply Qle_bool_iff in Hle. congruence.
Qed.

Lemma ltb_dec_false (x : num) (q : Q) : ltb x (dec q) = false -> (q <= x)%Q.
Proof.
  unfold ltb, dec. cbn [this Q2Qc]. rewrite Qred_correct.
  rewrite negb_false_iff. apply Qle_bool_iff.
Qed.

(** Turns the tests recorded in the context into inequalities on [Q]. *)
Ltac tests_to_Q :=
  repeat match goal with
         | H : geb _ (dec _) = true |- _ => apply geb_dec_true in H
         | H : geb _ (dec _) = false |- _ => apply geb_dec_false in H
         | H : ltb _ (dec _) = true |- _ => apply ltb_dec_true in H
         | H : ltb _ (dec _) = false |- _ => apply ltb_dec_false in H
         | H : (_ <= _)%Qc |- _ => unfold Qcle in H
         | H : (_ < _)%Qc |- _ => unfold Qclt in H
         end.

(** A comparison of two literals that holds, or tests that exclude the
    case. *)
Ltac literal_or_absurd :=
  first [ apply leb_le; vm_compute; reflexivity
        | vm_compute; reflexivity
        | exfalso; tests_to_Q; lra ].

(** ** The Normalizer: monotonicity and the labels of mobile records *)

(** X1. [hrvToStress] is non-increasing: a higher HRV never gives a higher
    stress index. *)
Theorem hrvToStress_antitone (a b : num) :
  (a <= b)%Qc -> (Api.hrvToStress b <= Api.hrvToStress a)%Qc.
Proof.
  intro Hab. unfold Api.hrvToStress.
  destruct (geb a (dec 100)) eqn:A1; [ |
  destruct (geb a (dec 80)) eqn:A2; [ |
  destruct (geb a (dec 60)) eqn:A3; [ |
  destruct (geb a (dec 40)) eqn:A4; [ |
  destruct (geb a (dec 25)) eqn:A5 ] ] ] ];
  (destruct (geb b (dec 100)) eqn:B1; [ |
   destruct (geb b (dec 80)) eqn:B2; [ |
   destruct (geb b (dec 60)) eqn:B3; [ |
   destruct (geb b (dec 40)) eqn:B4; [ |
   destruct (geb b (dec 25)) eqn:B5 ] ] ] ]);
  literal_or_absurd.
Qed.

(** X2. [heartRateToStress] is non-decreasing: a higher heart rate never
    gives a lower stress index. *)
Theorem heartRateToStress_monotone (a b : num) :
  (a <= b)%Qc -> (Api.heartRateToStress a <= Api.heartRateToStress b)%Qc.
Proof.
  intro Hab. unfold Api.heartRateToStress.
  destruct (ltb a (dec 60)) eqn:A1; [ |
  destruct (ltb a (dec 70)) eqn:A2; [ |
  destruct (ltb a (dec 80)) eqn:A3; [ |
  destruct (ltb a (dec 90)) eqn:A4; [ |
  destruct (ltb a (dec 100)) eqn:A5 ] ] ] ];
  (destruct (ltb b (dec 60)) eqn:B1; [ |
   destruct (ltb b (dec 70)) eqn:B2; [ |
   destruct (ltb b (dec 80)) eqn:B3; [ |
   destruct (ltb b (dec 90)) eqn:B4; [ |
   destruct (ltb b (dec 100)) eqn:B5 ] ] ] ]);
  literal_or_absurd.
Qed.

Lemma hrvToStress_antitone_witness :
  (Api.hrvToStress (dec 90) <= Api.hrvToStress (dec 30))%Qc.
Proof.
  apply (hrvToStress_antitone (dec 30) (dec 90)).
  apply leb_le. vm_compute. reflexivity.
Defined.

Lemma heartRateToStress_monotone_witness :
  (Api.heartRateToStress (dec 65) <= Api.heartRateToStress (dec 95))%Qc.
Proof.
  apply (heartRateToStress_monotone (dec 65) (dec 95)).
  apply leb_le. vm_compute. reflexivity.
Defined.

Lemma buildState_flow_state_hrv
    (data : Mobile.MobileBiometricData) (now : Z) (h : num) :
  Mobile.hrv data = Some h ->
  flow_state (Api.buildState data now)
  = Api.stressToFlowState (Api.hrvToStress h).
Proof. intro H. unfold Api.buildState. simpl. rewrite H. reflexivity. Qed.

Lemma buildState_flow_state_heart_rate
    (data : Mobile.MobileBiometricData) (now : Z) (hr : num) :
  Mobile.hrv data = None -> Mobile.heart_rate data = Some hr ->
  flow_state (Api.buildState data now)
  = Api.stressToFlowState (Api.heartRateToStress hr).
Proof.
  intros H1 H2. unfold Api.buildState. simpl. rewrite H1, H2. reflexivity.
Qed.

(** X3. The flow state of a record built from an HRV value is DEEP_FLOW
    from 80 ms up, NORMAL from 40 ms up to 80 ms and STRESSED below 40 ms,
    whatever the heart rate; it is never CALM. *)
Theorem hrv_record_flow_state
    (data : Mobile.MobileBiometricData) (now : Z) (h : num) :
  Mobile.hrv data = Some h ->
  flow_state (Api.buildState data now)
  = (if geb h (dec 80) then "DEEP_FLOW"
     else if geb h (dec 40) then "NORMAL"
     else "STRESSED")
  /\ flow_state (Api.buildState data now) <> "CALM".
Proof.
  intro H.
  assert (E : flow_state (Api.buildState data now)
              = (if geb h (dec 80) then "DEEP_FLOW"
                 else if geb h (dec 40) then "NORMAL"
                 else "STRESSED")).
  { rewrite (buildState_flow_state_hrv data now h H).
    unfold Api.hrvToStress.
    destruct (geb h (dec 100)) eqn:T1;
      destruct (geb h (dec 80)) eqn:T2;
      destruct (geb h (dec 60)) eqn:T3;
      destruct (geb h (dec 40)) eqn:T4;
      destruct (geb h (dec 25)) eqn:T5;
      literal_or_absurd. }
  split; [ exact E | ].
  rewrite E.
  destruct (geb h (dec 80)); [ discriminate | ].
  destruct (geb h (dec 40)); discriminate.
Qed.

Lemma hrv_record_flow_state_witness :
  flow_state (Api.buildState hrv90 1700000000000) = "DEEP_FLOW".
Proof.
  apply (proj1 (hrv_record_flow_state hrv90 1700000000000 (dec 90) eq_refl)).
Defined.

(** X4. The flow state of a record built from a heart rate alone is
    DEEP_FLOW below 60 bpm, CALM from 60 up to 70, NORMAL from 70 up to 90
    and STRESSED from 90 bpm up. *)
Theorem heart_rate_record_flow_state
    (data : Mobile.MobileBiometricData) (now : Z) (hr : num) :
  Mobile.hrv data = None -> Mobile.heart_rate data = Some hr ->
  flow_state (Api.buildState data now)
  = (if ltb hr (dec 60) then "DEEP_FLOW"
     else if ltb hr (dec 70) then "CALM"
     else if ltb hr (dec 90) then "NORMAL"
     else "STRESSED").
Proof.
  intros H1 H2.
  rewrite (buildState_flow_state_heart_rate data now hr H1 H2).
  unfold Api.heartRateToStress.
  destruct (ltb hr (dec 60)) eqn:T1;
    destruct (ltb hr (dec 70)) eqn:T2;
    destruct (ltb hr (dec 80)) eqn:T3;
    destruct (ltb hr (dec 90)) eqn:T4;
    destruct (ltb hr (dec 100)) eqn:T5;
    literal_or_absurd.
Qed.

Lemma heart_rate_record_flow_state_witness :
  flow_state (Api.buildState heartRate95 1700000000000) = "STRESSED".
Proof.
  apply (heart_rate_record_flow_state heartRate95 1700000000000 (dec 95)
           eq_refl eq_refl).
Defined.

(** ** The ingestion endpoint *)

Lemma truthy_false (o : option num) :
  truthy o = false <-> o = None \/ o = Some 0%Qc.
Proof.
  unfold truthy. destruct o as [x | ].
  - rewrite negb_false_iff. split.
    + intro H. right. f_equal. apply Qc_is_canon. apply Qeq_bool_iff. exact H.
    + intros [H | H]; [ discriminate H | ]. injection H as ->. reflexivity.
  - split; [ now left | reflexivity ].
Qed.

(** With a body, the answer and the environment of the request are those
    of [Api.handleBiometricsPost]. *)
Lemma request_with_body
    (data : Mobile.MobileBiometricData) (now : Z) (env : Env)
    (event : Request.pushEvent) :
  fst (Request.handleBiometricsPost (Some data) now env event)
  = Api.handleBiometricsPost data now env.
Proof.
  unfold Request.handleBiometricsPost, Api.handleBiometricsPost,
    Api.writeStateFile, Api.pushToSocket.
  destruct (negb (truthy (Mobile.hrv data))
            && negb (truthy (Mobile.heart_rate data))); [ reflexivity | ].
  destruct (writable env); reflexivity.
Qed.

(** X5. A request without a body is answered 500; nothing is written or
    sent.  For a request whose body carries numbers or nothing as [hrv] and
    [heart_rate]: when each of the two is missing or zero the endpoint
    answers 400, writes nothing and sends nothing; when one of them is a
    number other than zero and the state file cannot be written it answers
    500, and nothing is written or sent; otherwise it writes the record
    built from the sample to the state file, answers Updated with the
    stress index, flow state and source of that record, and sends the
    record to the daemon exactly when the socket file exists and the
    connection is established. *)
Theorem ingestion_answers (now : Z) (env : Env) (event : Request.pushEvent) :
  Request.handleBiometricsPost None now env event
  = (Api.Status500 "Internal server error", env, None) /\
  forall data : Mobile.MobileBiometricData,
    let missing :=
      (Mobile.hrv data = None \/ Mobile.hrv data = Some 0%Qc) /\
      (Mobile.heart_rate data = None \/
       Mobile.heart_rate data = Some 0%Qc) in
    let answer := Request.handleBiometricsPost (Some data) now env event in
    let state := Api.buildState data now in
    (missing ->
     answer
     = (Api.Status400 "Missing required field: hrv or heart_rate",
        env, None)) /\
    (~ missing -> writable env = false ->
     answer = (Api.Status500 "Internal server error", env, None)) /\
    (~ missing -> writable env = true ->
     fst (fst answer)
     = Api.Updated (stress_index state) (flow_state state) (source state) /\
     state_file (snd (fst answer)) = Some (Parsed state) /\
     (snd answer = Some state <->
      state_sock env <> None /\ event = Request.PushConnect) /\
     (snd answer = Some state \/ snd answer = None)).
Proof.
  split; [ reflexivity | ].
  intro data. cbv zeta. rewrite <- !truthy_false.
  unfold Request.handleBiometricsPost, Api.writeStateFile,
    Request.pushToSocket.
  destruct (truthy (Mobile.hrv data)) eqn:T1;
    destruct (truthy (Mobile.heart_rate data)) eqn:T2;
    cbn [negb andb].
  4: { split; [ reflexivity | ].
       split; intros Hm; exfalso; apply Hm; split; reflexivity. }
  all: split; [ intros [H1 H2]; try discriminate H1; discriminate H2 | ].
  all: split; intros Hm Hw; rewrite Hw; [ reflexivity | ].
  all: cbn [fst snd state_file state_sock].
  all: split; [ reflexivity | split; [ reflexivity | ] ].
  all: destruct (state_sock env) as [c | ]; destruct event;
       (split; [ split | ]);
       first [ left; reflexivity
             | right; reflexivity
             | intros _; split; [ discriminate | reflexivity ]
             | intros _; reflexivity
             | intro H; discriminate H
             | intros [H1 H2]; discriminate H2
             | intros [H1 H2]; exfalso; apply H1; reflexivity ].
Qed.

(** ** The Validator and the fetch *)

Section TrustFacts.

Variable process_exists : Z -> bool.

Local Abbreviation validateState := (StateReader.validateState process_exists).
Local Abbreviation readBiometricState :=
  (StateReader.readBiometricState process_exists).

Lemma validateState_trusted_or_default (now : Z) (s : BiometricState) :
  validateState now s = StateReader.getDefaultState now \/
  (validateState now s = s /\
   now - timestamp s <= 60000 /\ 0 < daemon_pid s /\
   process_exists (daemon_pid s) = true).
Proof.
  unfold StateReader.validateState.
  destruct (Z.gtb_spec (now - timestamp s) StateReader.MAX_STALENESS_MS)
    as [Hgt | Hle]; [ now left | ].
  destruct (StateReader.isDaemonAlive process_exists (daemon_pid s)) eqn:E;
    simpl; [ | now left ].
  right. apply isDaemonAlive_true in E.
  unfold StateReader.MAX_STALENESS_MS in Hle. tauto.
Qed.

Lemma validateState_default (now : Z) :
  validateState now (StateReader.getDefaultState now)
  = StateReader.getDefaultState now.
Proof.
  apply validateState_dead. apply isDaemonAlive_nonpositive. simpl. lia.
Qed.

(** X6. Validating is idempotent: what the Validator returns passes the
    Validator unchanged at the same instant. *)
Theorem validateState_idempotent (now : Z) (s : BiometricState) :
  validateState now (validateState now s) = validateState now s.
Proof.
  destruct (validateState_trusted_or_default now s) as [H | [H _]];
    rewrite H.
  - apply validateState_default.
  - exact H.
Qed.

(** On environments of complete records the fetch returns the default
    record or a fresh record of a running producer. *)
Lemma readBiometricState_trusted (env : Env) (now : Z) :
  exists r,
    readBiometricState env now = Ok r /\
    Facts.trusted process_exists now r.
Proof.
  assert (Hv : forall s, Facts.trusted process_exists now (validateState now s)).
  { intro s. destruct (validateState_trusted_or_default now s)
      as [H | [H Hs]]; rewrite H; [ now left | now right ]. }
  destruct (StateReader.readFromSocket env) as [s | m] eqn:Hs.
  - exists (validateState now s).
    split; [ now apply readBiometricState_socket | apply Hv ].
  - destruct (StateReader.readFromFile env) as [s | m'] eqn:Hf.
    + exists (validateState now s).
      split; [ now apply (readBiometricState_file _ env now m) | apply Hv ].
    + exists (StateReader.getDefaultState now).
      split; [ now apply (readBiometricState_default _ env now m m')
             | now left ].
Qed.

(** X8. A record delivered by the socket shadows the state file: the fetch
    answers with the validation of the socket's record, so when that record
    is stale or its producer is gone the answer is the default record, even
    if the file holds a record that would pass. *)
Theorem socket_record_shadows_file
    (env : Env) (now : Z) (s : BiometricState) :
  state_sock env = Some (Ended (Parsed s)) ->
  readBiometricState env now = Ok (validateState now s) /\
  (60000 < now - timestamp s \/ daemon_pid s <= 0 \/
   process_exists (daemon_pid s) = false ->
   readBiometricState env now = Ok (StateReader.getDefaultState now)).
Proof.
  intro Hsock.
  assert (H : readBiometricState env now = Ok (validateState now s)).
  { apply readBiometricState_socket.
    unfold StateReader.readFromSocket. rewrite Hsock. reflexivity. }
  split; [ exact H | ].
  intro Hbad. rewrite H. f_equal.
  destruct Hbad as [Hstale | Hdead].
  - now apply validateState_stale.
  - apply validateState_dead.
    destruct Hdead as [Hpid | Hex]; [ now apply isDaemonAlive_nonpositive | ].
    destruct (StateReader.isDaemonAlive process_exists (daemon_pid s)) eqn:E;
      [ | reflexivity ].
    apply isDaemonAlive_true in E. destruct E as [_ E]. congruence.
Qed.

End TrustFacts.

Lemma socket_record_shadows_file_witness :
  StateReader.readBiometricState (onlyProcess 4242) staleSocketFreshFile
    1700000061000
  = Ok (StateReader.getDefaultState 1700000061000)
  /\
  StateReader.validateState (onlyProcess 4242) 1700000061000
    (keystrokeRecord 1700000060000 4242)
  = keystrokeRecord 1700000060000 4242.
Proof.
  split.
  - apply (proj2 (socket_record_shadows_file (onlyProcess 4242)
                    staleSocketFreshFile 1700000061000
                    (keystrokeRecord 1700000000000 4242) eq_refl)).
    left. simpl. lia.
  - reflexivity.
Defined.

(** ** The hook *)

Section HookFacts.

Variable numberToString : num -> string.
Variable process_exists : Z -> bool.

Local Abbreviation derive := (Plugin.derive numberToString).
Local Abbreviation pre_process :=
  (Plugin.pre_process numberToString process_exists).

Lemma derive_biometrics (s : BiometricState) (ctx : Plugin.Context) :
  Plugin.biometrics (derive s ctx) = Some s.
Proof.
  unfold Plugin.derive.
  destruct (Plugin.systemPrecepts ctx);
    destruct (gtb (stress_index s) (dec 0.7) && gtb (confidence s) (dec 0.5));
    destruct (String.eqb (flow_state s) "DEEP_FLOW"
              && gtb (confidence s) (dec 0.5));
    reflexivity.
Qed.

(** X9. The hook never fails and never drops a directive: it attaches the
    fetched record to the context and leaves the directives it found,
    followed by the ones the record fires. *)
Theorem hook_appends_to_directives (env : Env) (now : Z) (ctx : Plugin.Context) :
  exists state ctx',
    StateReader.readBiometricState process_exists env now = Ok state /\
    pre_process env now ctx = Ok ctx' /\
    Plugin.biometrics ctx' = Some state /\
    Plugin.precepts ctx' = (Plugin.precepts ctx ++ Plugin.fired state)%list.
Proof.
  destruct (readBiometricState_returns process_exists env now) as [state Hr].
  exists state, (derive state ctx).
  split; [ exact Hr | ].
  split; [ unfold Plugin.pre_process; rewrite Hr; reflexivity | ].
  split; [ apply derive_biometrics | apply derive_precepts ].
Qed.

Lemma fired_nil_of_low_confidence (s : BiometricState) :
  (confidence s <= dec 0.5)%Qc -> Plugin.fired s = [].
Proof.
  intro H. unfold Plugin.fired.
  destruct (low_confidence_rules s H) as [-> ->]. reflexivity.
Qed.

(** X11. When the first rule fires the note is written anew: the note that
    results does not depend on the context, so a note that was there is
    discarded.  When only the second rule fires the note found is kept and
    the deep-flow text is appended to it. *)
Theorem note_overwritten_or_extended
    (s : BiometricState) (ctx1 ctx2 : Plugin.Context) :
  (Plugin.rule1 s = true ->
   Plugin.biometricNote (derive s ctx1) = Plugin.biometricNote (derive s ctx2)) /\
  (Plugin.rule1 s = false -> Plugin.rule2 s = true ->
   Plugin.biometricNote (derive s ctx1)
   = Some (Plugin.noteOrEmpty ctx1 ++ Plugin.deepFlowNote)).
Proof.
  unfold Plugin.rule1, Plugin.rule2, Plugin.derive.
  split.
  - intros ->.
    destruct (String.eqb (flow_state s) "DEEP_FLOW"
              && gtb (confidence s) (dec 0.5));
      destruct (Plugin.systemPrecepts ctx1);
      destruct (Plugin.systemPrecepts ctx2); reflexivity.
  - intros -> ->. destruct (Plugin.systemPrecepts ctx1); reflexivity.
Qed.

End HookFacts.



(** ** The fetch and the hook on documents of any shape *)

Section UntypedTrust.

Variable numberToString : num -> string.
Variable process_exists : Z -> bool.

Local Abbreviation fetch := (Untyped.readBiometricState process_exists).
Local Abbreviation derive := (UntypedHook.derive numberToString).
Local Abbreviation pre_process :=
  (UntypedHook.pre_process numberToString process_exists).

Lemma stale_false (now : Z) (o : Api.StateObject) :
  Untyped.stale now (Api.o_timestamp o) = false ->
  forall t, Api.o_timestamp o = Some t -> now - t <= 60000.
Proof.
  intros H t Ht. rewrite Ht in H. unfold Untyped.stale in H.
  unfold StateReader.MAX_STALENESS_MS in H.
  destruct (Z.gtb_spec (now - t) 60000); [ discriminate H | assumption ].
Qed.

Lemma untyped_alive (o : Api.StateObject) :
  Untyped.isDaemonAlive process_exists (Api.o_daemon_pid o) = true ->
  exists p, Api.o_daemon_pid o = Some p /\ 0 < p /\ process_exists p = true.
Proof.
  unfold Untyped.isDaemonAlive. destruct (Api.o_daemon_pid o) as [p | ];
    [ | discriminate ].
  intro H. apply isDaemonAlive_true in H. exists p. tauto.
Qed.

(** On a complete record the readers of [Untyped] are the typed ones. *)
Lemma untyped_validate_of_state (now : Z) (s : BiometricState) :
  Untyped.validateState process_exists now
    (Untyped.PObject (Api.toObject s))
  = Ok (Api.toObject (StateReader.validateState process_exists now s)).
Proof.
  unfold Untyped.validateState, StateReader.validateState. cbn.
  destruct (now - timestamp s >? StateReader.MAX_STALENESS_MS);
    [ reflexivity | ].
  destruct (StateReader.isDaemonAlive process_exists (daemon_pid s));
    reflexivity.
Qed.

Lemma untyped_fetch_of_env (env : Env) (now : Z) :
  fetch (Untyped.ofEnv env) now
  = match StateReader.readBiometricState process_exists env now with
    | Ok r => Ok (Api.toObject r)
    | Throw m => Throw m
    end.
Proof.
  unfold Untyped.readBiometricState, StateReader.readBiometricState,
    Untyped.readFromSocket, StateReader.readFromSocket,
    Untyped.readFromFile, StateReader.readFromFile, Untyped.ofEnv.
  cbn [Untyped.sock Untyped.file].
  destruct (state_sock env) as [[[s1 | ] | m | ] | ];
    destruct (state_file env) as [[s2 | ] | ];
    cbn [option_map Untyped.ofConnection Untyped.ofPayload bind try_catch];
    rewrite ?untyped_validate_of_state; reflexivity.
Qed.

(** X7. The fetch never hands out an object it found stale or orphaned:
    whatever the socket and the state file hold, it returns the default
    record of this instant, or the object that the socket or the file
    holds, and then the producer id of that object is a positive number of
    a running process and its timestamp, if it is a number, lies at most
    60 seconds back.  An object without a numeric timestamp is not stale
    for the code: with a running producer it is returned as it is. *)
Theorem fetch_returns_trusted_record (w : Untyped.World) (now : Z) :
  (exists r,
      fetch w now = Ok r /\
      (r = Api.toObject (StateReader.getDefaultState now) \/
       ((Untyped.sock w
         = Some (Untyped.SockEnded (Untyped.Json (Untyped.PObject r))) \/
         Untyped.file w = Some (Untyped.Json (Untyped.PObject r))) /\
        (exists p, Api.o_daemon_pid r = Some p /\ 0 < p /\
                   process_exists p = true) /\
        (forall t, Api.o_timestamp r = Some t -> now - t <= 60000)))) /\
  (forall o p,
      Untyped.sock w
      = Some (Untyped.SockEnded (Untyped.Json (Untyped.PObject o))) \/
      (Untyped.sock w = None /\
       Untyped.file w = Some (Untyped.Json (Untyped.PObject o))) ->
      Api.o_timestamp o = None ->
      Api.o_daemon_pid o = Some p -> 0 < p -> process_exists p = true ->
      fetch w now = Ok o).
Proof.
  split.
  - destruct (untyped_fetch_cases process_exists w now)
      as [r [Hr [Hd | [Hsrc [Hstale Halive]]]]];
      exists r; (split; [ exact Hr | ]).
    + now left.
    + right. split; [ exact Hsrc | ].
      split; [ now apply untyped_alive | now apply stale_false ].
  - intros o p Hsrc Ht Hp Hpos Hex.
    assert (Hv : Untyped.validateState process_exists now (Untyped.PObject o)
                 = Ok o).
    { unfold Untyped.validateState, Untyped.stale, Untyped.isDaemonAlive.
      rewrite Ht, Hp.
      rewrite (proj2 (isDaemonAlive_true process_exists p) (conj Hpos Hex)).
      reflexivity. }
    destruct Hsrc as [Hs | [Hs Hf]].
    + rewrite (untyped_fetch_socket process_exists w now o Hs). exact Hv.
    + rewrite (untyped_fetch_file process_exists w now o); [ exact Hv | | exact Hf ].
      intros o' H. rewrite Hs in H. discriminate H.
Qed.

Lemma untyped_derive_precepts
    (o : Api.StateObject) (ctx : UntypedHook.Context) :
  UntypedHook.precepts (derive o ctx)
  = (UntypedHook.precepts ctx ++ UntypedHook.fired o)%list.
Proof.
  unfold UntypedHook.derive, UntypedHook.fired, UntypedHook.rule1,
    UntypedHook.rule2, UntypedHook.precepts.
  destruct (UntypedHook.systemPrecepts ctx) as [l | ];
    destruct (UntypedHook.exceeds (Api.o_stress_index o) (dec 0.7)
              && UntypedHook.exceeds (Api.o_confidence o) (dec 0.5));
    destruct (match Api.o_flow_state o with
              | Some f => String.eqb f "DEEP_FLOW"
              | None => false
              end && UntypedHook.exceeds (Api.o_confidence o) (dec 0.5));
    simpl; rewrite ?app_nil_r, <- ?app_assoc; reflexivity.
Qed.

Lemma untyped_derive_biometrics
    (o : Api.StateObject) (ctx : UntypedHook.Context) :
  UntypedHook.biometrics (derive o ctx) = Some o.
Proof.
  unfold UntypedHook.derive.
  destruct (UntypedHook.systemPrecepts ctx);
    destruct (UntypedHook.exceeds (Api.o_stress_index o) (dec 0.7)
              && UntypedHook.exceeds (Api.o_confidence o) (dec 0.5));
    destruct (match Api.o_flow_state o with
              | Some f => String.eqb f "DEEP_FLOW"
              | None => false
              end && UntypedHook.exceeds (Api.o_confidence o) (dec 0.5));
    reflexivity.
Qed.

(** A rule fires only on a confidence that is a number above 0.5. *)
Lemma untyped_fired_confidence (o : Api.StateObject) :
  UntypedHook.fired o <> [] ->
  exists c, Api.o_confidence o = Some c /\ (dec 0.5 < c)%Qc.
Proof.
  unfold UntypedHook.fired, UntypedHook.rule1, UntypedHook.rule2,
    UntypedHook.exceeds.
  destruct (Api.o_confidence o) as [c | ].
  - destruct (gtb c (dec 0.5)) eqn:G.
    + intros _. exists c. split; [ reflexivity | now apply gtb_gt ].
    + rewrite !andb_false_r. intro H. exfalso. apply H. reflexivity.
  - rewrite !andb_false_r. intro H. exfalso. apply H. reflexivity.
Qed.

(** X10. A directive is only ever added on behalf of a running producer: if
    the hook changes the directives, the object it attached has a producer
    id that is a positive number of a running process and a confidence that
    is a number above 0.5, and its timestamp, if it is a number, lies at
    most 60 seconds back. *)
Theorem directive_requires_live_confident_record
    (w : Untyped.World) (now : Z) (ctx ctx' : UntypedHook.Context) :
  pre_process w now ctx = Ok ctx' ->
  UntypedHook.precepts ctx' <> UntypedHook.precepts ctx ->
  exists r,
    UntypedHook.biometrics ctx' = Some r /\
    (exists p, Api.o_daemon_pid r = Some p /\ 0 < p /\
               process_exists p = true) /\
    (exists c, Api.o_confidence r = Some c /\ (dec 0.5 < c)%Qc) /\
    (forall t, Api.o_timestamp r = Some t -> now - t <= 60000).
Proof.
  intros Hhook Hchanged.
  destruct (untyped_fetch_cases process_exists w now) as [r [Hr Hfrom]].
  unfold UntypedHook.pre_process in Hhook. rewrite Hr in Hhook.
  cbn [bind] in Hhook. injection Hhook as <-.
  assert (Hfired : UntypedHook.fired r <> []).
  { intro E. apply Hchanged. rewrite untyped_derive_precepts, E.
    apply app_nil_r. }
  exists r. split; [ apply untyped_derive_biometrics | ].
  destruct Hfrom as [Hd | [_ [Hstale Halive]]].
  - exfalso. apply Hfired. subst r. vm_compute. reflexivity.
  - split; [ now apply untyped_alive | ].
    split; [ now apply untyped_fired_confidence | now apply stale_false ].
Qed.

End UntypedTrust.

Lemma fetch_returns_trusted_record_witness :
  Untyped.readBiometricState (onlyProcess 4242) noTimestampFile 1700000000000
  = Ok noTimestamp.
Proof.
  apply (proj2 (fetch_returns_trusted_record (onlyProcess 4242)
                  noTimestampFile 1700000000000) noTimestamp 4242).
  - right. split; reflexivity.
  - reflexivity.
  - reflexivity.
  - lia.
  - reflexivity.
Defined.

(** The hook adds CONCISE_MODE for a stressed, confident object of a
    running producer that has no timestamp. *)
Lemma directive_requires_live_confident_record_witness :
  UntypedHook.precepts
    (UntypedHook.derive printSample noTimestamp freshUntyped)
  = ["CONCISE_MODE"]
  /\
  exists r,
    UntypedHook.biometrics
      (UntypedHook.derive printSample noTimestamp freshUntyped) = Some r /\
    (exists p, Api.o_daemon_pid r = Some p /\ 0 < p /\
               onlyProcess 4242 p = true) /\
    (exists c, Api.o_confidence r = Some c /\ (dec 0.5 < c)%Qc) /\
    (forall t, Api.o_timestamp r = Some t -> 1700000000000 - t <= 60000).
Proof.
  split; [ vm_compute; reflexivity | ].
  apply (directive_requires_live_confident_record printSample
           (onlyProcess 4242) noTimestampFile 1700000000000 freshUntyped).
  - reflexivity.
  - vm_compute. discriminate.
Defined.

(** ** The simulate command *)

Lemma in_unit_tests (x : num) :
  ltb x (dec 0) || gtb x (dec 1) = false -> (0 <= x)%Qc /\ (x <= 1)%Qc.
Proof.
  intro H. apply orb_false_iff in H. destruct H as [H0 H1].
  apply ltb_dec_false in H0. unfold gtb in H1.
  split.
  - unfold Qcle. cbn [this Q2Qc]. exact H0.
  - apply leb_le. unfold ltb in H1. apply negb_false_iff in H1.
    unfold leb. replace 1%Qc with (dec 1) by qc_eq. exact H1.
Qed.

Lemma PRESETS_lookup (name : string) (x : num) (f : string) :
  Simulate.lookup name Simulate.PRESETS = Some (x, f) ->
  ((0 <= x)%Qc /\ (x <= 1)%Qc) /\
  Simulate.includes Simulate.validStates f = true.
Proof.
  unfold Simulate.PRESETS. cbn [Simulate.lookup].
  repeat (destruct (String.eqb _ name);
          [ intro H; injection H as <- <-;
            split; [ split; apply leb_le; vm_compute; reflexivity
                   | reflexivity ]
          | ]).
  discriminate.
Qed.

Lemma includes_In (l : list string) (f : string) :
  Simulate.includes l f = true -> In f l.
Proof.
  intro H. unfold Simulate.includes in H. apply existsb_exists in H.
  destruct H as [g [Hg E]]. apply String.eqb_eq in E. subst g. exact Hg.
Qed.

Section SimulateMore.

Variable parseFloat : string -> option num.
Variable pid : Z.
Variable toUpperCase : string -> string.
Variable inherited : string -> bool.

Local Abbreviation simulate :=
  (Simulate.simulate parseFloat pid toUpperCase inherited).

(** The values left by the three option blocks when none of them ends the
    command: each is in range, or undefined after an inherited preset that
    no flag replaced. *)
Lemma simulate_stages (options : Simulate.SimulateOptions) (now : Z) (env : Env) :
  (exists m, simulate options now env = Simulate.Exit1 m) \/
  exists s f,
    (s = None /\ Simulate.given (Simulate.stress options) = None \/
     exists x, s = Some x /\ (0 <= x)%Qc /\ (x <= 1)%Qc) /\
    (f = None /\ Simulate.given (Simulate.flow options) = None \/
     exists fl, f = Some fl /\
                Simulate.includes Simulate.validStates fl = true) /\
    (s = None \/ f = None ->
     exists name,
       Simulate.given (Simulate.preset options) = Some name /\
       Simulate.lookup name Simulate.PRESETS = None /\
       inherited name = true) /\
    simulate options now env
    = match s, f with
      | Some x, Some fl =>
          match
            Api.writeStateFile
              {| stress_index := x; flow_state := fl; timestamp := now;
                 ttl_seconds := 300; daemon_pid := pid;
                 confidence := dec 1.0; source := "simulation" |} env
          with
          | Ok env1 =>
              Simulate.Written
                {| stress_index := x; flow_state := fl; timestamp := now;
                   ttl_seconds := 300; daemon_pid := pid;
                   confidence := dec 1.0; source := "simulation" |} env1
          | Throw message => Simulate.Raised message
          end
      | _, _ =>
          if writable env
          then Simulate.WrittenPartial
                 {| Api.o_stress_index := s;
                    Api.o_flow_state := f;
                    Api.o_timestamp := Some now;
                    Api.o_ttl_seconds := Some 300;
                    Api.o_daemon_pid := Some pid;
                    Api.o_confidence := Some (dec 1.0);
                    Api.o_source := Some "simulation" |}
                 {| Untyped.sock := Untyped.sock (Untyped.ofEnv env);
                    Untyped.file :=
                      Some (Untyped.Json
                              (Untyped.PObject
                                 {| Api.o_stress_index := s;
                                    Api.o_flow_state := f;
                                    Api.o_timestamp := Some now;
                                    Api.o_ttl_seconds := Some 300;
                                    Api.o_daemon_pid := Some pid;
                                    Api.o_confidence := Some (dec 1.0);
                                    Api.o_source := Some "simulation" |}));
                    Untyped.can_write := writable env |}
          else Simulate.Raised "EACCES"
      end.
Proof.
  assert (Hhalf : (0 <= dec 0.5)%Qc /\ (dec 0.5 <= 1)%Qc)
    by (split; apply leb_le; vm_compute; reflexivity).
  unfold Simulate.simulate.
  (* the preset block *)
  assert (Hpre :
    (exists m,
       match Simulate.given (Simulate.preset options) with
       | Some name =>
           match Simulate.lookup name Simulate.PRESETS with
           | Some (stress_index, flow_state) =>
               Ok (Some stress_index, Some flow_state)
           | None =>
               if inherited name then Ok (None, None)
               else Throw ("Unknown preset: " ++ name)
           end
       | None => Ok (Some (dec 0.5), Some "NORMAL")
       end = Throw m) \/
    exists s0 f0,
      match Simulate.given (Simulate.preset options) with
      | Some name =>
          match Simulate.lookup name Simulate.PRESETS with
          | Some (stress_index, flow_state) =>
              Ok (Some stress_index, Some flow_state)
          | None =>
              if inherited name then Ok (None, None)
              else Throw ("Unknown preset: " ++ name)
          end
      | None => Ok (Some (dec 0.5), Some "NORMAL")
      end = Ok (s0, f0) /\
      (s0 = None \/ exists x, s0 = Some x /\ (0 <= x)%Qc /\ (x <= 1)%Qc) /\
      (f0 = None \/ exists fl, f0 = Some fl /\
                     Simulate.includes Simulate.validStates fl = true) /\
      (s0 = None \/ f0 = None ->
       exists name,
         Simulate.given (Simulate.preset options) = Some name /\
         Simulate.lookup name Simulate.PRESETS = None /\
         inherited name = true)).
  { destruct (Simulate.given (Simulate.preset options)) as [name | ].
    - destruct (Simulate.lookup name Simulate.PRESETS) as [[x0 f0] | ] eqn:L.
      + destruct (PRESETS_lookup name x0 f0 L) as [Hx Hf].
        right. exists (Some x0), (Some f0).
        split; [ reflexivity | ].
        split; [ right; exists x0; tauto | ].
        split; [ right; exists f0; tauto | ].
        intros [H | H]; discriminate H.
      + destruct (inherited name) eqn:I.
        * right. exists None, None.
          split; [ reflexivity | ].
          split; [ now left | ]. split; [ now left | ].
          intros _. exists name. repeat split; assumption.
        * left. eexists. reflexivity.
    - right. exists (Some (dec 0.5)), (Some "NORMAL").
      split; [ reflexivity | ].
      split; [ right; exists (dec 0.5); tauto | ].
      split; [ right; exists "NORMAL"; split; reflexivity | ].
      intros [H | H]; discriminate H. }
  destruct Hpre as [[m ->] | [s0 [f0 [-> [Hs0 [Hf0 Hinh]]]]]];
    [ left; exists m; reflexivity | ].
  cbn [bind].
  (* the stress block *)
  destruct (Simulate.given (Simulate.stress options)) as [text | ] eqn:Gs.
  - destruct (parseFloat text) as [x | ];
      [ | left; eexists; reflexivity ].
    destruct (ltb x (dec 0) || gtb x (dec 1)) eqn:R;
      [ left; eexists; reflexivity | ].
    apply in_unit_tests in R. cbn [bind].
    (* the flow block *)
    destruct (Simulate.given (Simulate.flow options)) as [ftext | ] eqn:Gf.
    + destruct (negb (Simulate.includes Simulate.validStates
                        (toUpperCase ftext))) eqn:V;
        [ left; eexists; reflexivity | ].
      apply negb_false_iff in V.
      right. exists (Some x), (Some (toUpperCase ftext)).
      split; [ right; exists x; tauto | ].
      split; [ right; eexists; split; [ reflexivity | exact V ] | ].
      split; [ intros [H | H]; discriminate H | reflexivity ].
    + right. exists (Some x), f0.
      split; [ right; exists x; tauto | ].
      split; [ destruct Hf0 as [-> | Hf0]; [ left; split; reflexivity
                                           | right; exact Hf0 ] | ].
      split.
      * intros [H | H]; [ discriminate H | ]. apply Hinh. now right.
      * destruct f0; reflexivity.
  - cbn [bind].
    destruct (Simulate.given (Simulate.flow options)) as [ftext | ] eqn:Gf.
    + destruct (negb (Simulate.includes Simulate.validStates
                        (toUpperCase ftext))) eqn:V;
        [ left; eexists; reflexivity | ].
      apply negb_false_iff in V.
      right. exists s0, (Some (toUpperCase ftext)).
      split; [ destruct Hs0 as [-> | Hs0]; [ left; split; reflexivity
                                           | right; exact Hs0 ] | ].
      split; [ right; eexists; split; [ reflexivity | exact V ] | ].
      split.
      * intros [H | H]; [ | discriminate H ]. apply Hinh. now left.
      * destruct s0; reflexivity.
    + right. exists s0, f0.
      split; [ destruct Hs0 as [-> | Hs0]; [ left; split; reflexivity
                                           | right; exact Hs0 ] | ].
      split; [ destruct Hf0 as [-> | Hf0]; [ left; split; reflexivity
                                           | right; exact Hf0 ] | ].
      split; [ exact Hinh | ].
      destruct s0; destruct f0; reflexivity.
Qed.

Lemma simulate_written
    (options : Simulate.SimulateOptions) (now : Z) (env env' : Env)
    (st : BiometricState) :
  simulate options now env = Simulate.Written st env' ->
  ((0 <= stress_index st)%Qc /\ (stress_index st <= 1)%Qc) /\
  In (flow_state st) Simulate.validStates /\
  timestamp st = now /\ ttl_seconds st = 300 /\ daemon_pid st = pid /\
  confidence st = dec 1.0 /\ source st = "simulation" /\
  state_file env' = Some (Parsed st) /\ state_sock env' = state_sock env.
Proof.
  intro H.
  destruct (simulate_stages options now env)
    as [[m E] | [s [f [Hs [Hf [_ E]]]]]]; rewrite E in H;
    [ discriminate H | ].
  destruct s as [x | ]; destruct f as [fl | ];
    try (destruct (writable env); discriminate H).
  destruct Hs as [[Hs _] | [x' [Hs Hx]]]; [ discriminate Hs | ].
  injection Hs as Hs. subst x'.
  destruct Hf as [[Hf _] | [fl' [Hf Hv]]]; [ discriminate Hf | ].
  injection Hf as Hf. subst fl'.
  unfold Api.writeStateFile in H.
  destruct (writable env); [ | discriminate H ].
  injection H as <- <-. cbn.
  repeat split; try reflexivity; try tauto.
  exact (includes_In Simulate.validStates fl Hv).
Qed.

(** X13. A record that the simulate command writes whole has a stress
    index in [0,1] and one of the five flow states, the time of the call,
    ttl 300, the pid of the command, confidence 1 and source simulation,
    and it becomes the content of the state file.  The command writes an
    object without stress index or without flow state only when the preset
    name is not an entry of the table but a property that objects inherit,
    and the flag that would supply the value is absent; the values that
    object has are in range as well. *)
Theorem simulate_writes_valid_record
    (options : Simulate.SimulateOptions) (now : Z) (env : Env) :
  (forall st env',
      simulate options now env = Simulate.Written st env' ->
      ((0 <= stress_index st)%Qc /\ (stress_index st <= 1)%Qc) /\
      In (flow_state st) Simulate.validStates /\
      timestamp st = now /\ ttl_seconds st = 300 /\ daemon_pid st = pid /\
      confidence st = dec 1.0 /\ source st = "simulation" /\
      state_file env' = Some (Parsed st) /\
      state_sock env' = state_sock env) /\
  (forall o w',
      simulate options now env = Simulate.WrittenPartial o w' ->
      (exists name,
          Simulate.given (Simulate.preset options) = Some name /\
          Simulate.lookup name Simulate.PRESETS = None /\
          inherited name = true) /\
      (Api.o_stress_index o = None /\
       Simulate.given (Simulate.stress options) = None
       \/
       Api.o_flow_state o = None /\
       Simulate.given (Simulate.flow options) = None) /\
      (forall x, Api.o_stress_index o = Some x ->
                 (0 <= x)%Qc /\ (x <= 1)%Qc) /\
      (forall f, Api.o_flow_state o = Some f ->
                 In f Simulate.validStates) /\
      Api.o_timestamp o = Some now /\
      Api.o_daemon_pid o = Some pid /\
      Untyped.file w' = Some (Untyped.Json (Untyped.PObject o))).
Proof.
  split.
  - intros st env'. apply simulate_written.
  - intros o w' H.
    destruct (simulate_stages options now env)
      as [[m E] | [s [f [Hs [Hf [Hinh E]]]]]]; rewrite E in H;
      [ discriminate H | ].
    assert (Hobj :
      (s = None \/ f = None) /\
      o = {| Api.o_stress_index := s; Api.o_flow_state := f;
             Api.o_timestamp := Some now; Api.o_ttl_seconds := Some 300;
             Api.o_daemon_pid := Some pid;
             Api.o_confidence := Some (dec 1.0);
             Api.o_source := Some "simulation" |} /\
      Untyped.file w' = Some (Untyped.Json (Untyped.PObject o))).
    { destruct s as [x | ]; destruct f as [fl | ].
      - unfold Api.writeStateFile in H.
        destruct (writable env); discriminate H.
      - destruct (writable env); [ | discriminate H ].
        injection H as <- <-. split; [ now right | split; reflexivity ].
      - destruct (writable env); [ | discriminate H ].
        injection H as <- <-. split; [ now left | split; reflexivity ].
      - destruct (writable env); [ | discriminate H ].
        injection H as <- <-. split; [ now left | split; reflexivity ]. }
    destruct Hobj as [Hnone [-> Hfile]]. cbn.
    split; [ exact (Hinh Hnone) | ].
    split.
    { destruct Hnone as [-> | ->].
      - left. destruct Hs as [[_ Hs] | [x [Hs _]]];
          [ split; [ reflexivity | exact Hs ] | discriminate Hs ].
      - right. destruct Hf as [[_ Hf] | [fl [Hf _]]];
          [ split; [ reflexivity | exact Hf ] | discriminate Hf ]. }
    split.
    { intros x Hx. destruct Hs as [[Hs _] | [x' [Hs Hr]]];
        [ congruence | ]. rewrite Hs in Hx. injection Hx as <-. exact Hr. }
    split.
    { intros fl Hfl. destruct Hf as [[Hf _] | [fl' [Hf Hv]]];
        [ congruence | ]. rewrite Hf in Hfl. injection Hfl as <-.
      exact (includes_In Simulate.validStates fl' Hv). }
    repeat split; try reflexivity. exact Hfile.
Qed.

Lemma ltb_zero (x : num) : (x < 0)%Qc -> ltb x (dec 0) = true.
Proof. intro H. apply ltb_lt. replace (dec 0) with 0%Qc by qc_eq. exact H. Qed.

Lemma gtb_one (x : num) : (1 < x)%Qc -> gtb x (dec 1) = true.
Proof. intro H. apply gtb_gt. replace (dec 1) with 1%Qc by qc_eq. exact H. Qed.

(** X14. The simulate command ends with exit code 1, writing nothing, on a
    preset name that is neither an entry of the table nor a property that
    objects inherit; failing that, on a stress flag that is not a number or
    lies outside [0,1]; failing that, on a flow flag whose upper-case form
    is none of the five states. *)
Theorem simulate_rejects_bad_options
    (options : Simulate.SimulateOptions) (now : Z) (env : Env) :
  (forall name,
      Simulate.given (Simulate.preset options) = Some name ->
      Simulate.lookup name Simulate.PRESETS = None ->
      inherited name = false ->
      simulate options now env
      = Simulate.Exit1 ("Unknown preset: " ++ name)) /\
  (forall text,
      (Simulate.given (Simulate.preset options) = None \/
       exists name,
         Simulate.given (Simulate.preset options) = Some name /\
         ((exists p, Simulate.lookup name Simulate.PRESETS = Some p) \/
          inherited name = true)) ->
      Simulate.given (Simulate.stress options) = Some text ->
      (parseFloat text = None \/
       exists x, parseFloat text = Some x /\ ((x < 0)%Qc \/ (1 < x)%Qc)) ->
      simulate options now env
      = Simulate.Exit1 "Stress must be a number between 0.0 and 1.0") /\
  (forall ftext,
      (Simulate.given (Simulate.preset options) = None \/
       exists name,
         Simulate.given (Simulate.preset options) = Some name /\
         ((exists p, Simulate.lookup name Simulate.PRESETS = Some p) \/
          inherited name = true)) ->
      (Simulate.given (Simulate.stress options) = None \/
       exists text x,
         Simulate.given (Simulate.stress options) = Some text /\
         parseFloat text = Some x /\ (0 <= x)%Qc /\ (x <= 1)%Qc) ->
      Simulate.given (Simulate.flow options) = Some ftext ->
      Simulate.includes Simulate.validStates (toUpperCase ftext) = false ->
      simulate options now env
      = Simulate.Exit1 ("Invalid flow state: " ++ ftext)).
Proof.
  assert (Hpass :
    (Simulate.given (Simulate.preset options) = None \/
     exists name,
       Simulate.given (Simulate.preset options) = Some name /\
       ((exists p, Simulate.lookup name Simulate.PRESETS = Some p) \/
        inherited name = true)) ->
    exists p,
      match Simulate.given (Simulate.preset options) with
      | Some name =>
          match Simulate.lookup name Simulate.PRESETS with
          | Some (stress_index, flow_state) =>
              Ok (Some stress_index, Some flow_state)
          | None =>
              if inherited name then Ok (None, None)
              else Throw ("Unknown preset: " ++ name)
          end
      | None => Ok (Some (dec 0.5), Some "NORMAL")
      end = Ok p).
  { intros [-> | [name [-> Hn]]]; [ eexists; reflexivity | ].
    destruct (Simulate.lookup name Simulate.PRESETS) as [[x0 f0] | ];
      [ eexists; reflexivity | ].
    destruct Hn as [[p Hp] | ->]; [ discriminate Hp | eexists; reflexivity ]. }
  unfold Simulate.simulate.
  split; [ | split ].
  - intros name Hp Hl Hi. rewrite Hp, Hl, Hi. reflexivity.
  - intros text Hp Hs Hbad.
    destruct (Hpass Hp) as [[s0 f0] ->]. cbn [bind]. rewrite Hs.
    destruct Hbad as [-> | [x [-> Hx]]]; [ reflexivity | ].
    assert (R : ltb x (dec 0) || gtb x (dec 1) = true).
    { destruct Hx as [Hx | Hx];
        [ rewrite (ltb_zero x Hx); reflexivity
        | rewrite (gtb_one x Hx); apply orb_true_r ]. }
    rewrite R. reflexivity.
  - intros ftext Hp Hs Hf Hv.
    destruct (Hpass Hp) as [[s0 f0] ->]. cbn [bind]. rewrite Hf.
    destruct Hs as [-> | [text [x [-> [-> [H0 H1]]]]]]; cbn [bind].
    + rewrite Hv. reflexivity.
    + rewrite (in_unit_not_rejected x H0 H1). cbn [bind].
      rewrite Hv. reflexivity.
Qed.

(** X15. A simulated record is trusted only while the command's process
    runs: with no socket, a later fetch returns the record written by
    simulate when it is at most 60 seconds old and the pid of the command
    is positive and still belongs to a running process, and the default
    record otherwise. *)
Theorem simulated_record_needs_running_command
    (process_exists : Z -> bool)
    (options : Simulate.SimulateOptions) (now later : Z) (env env' : Env)
    (st : BiometricState) :
  simulate options now env = Simulate.Written st env' ->
  state_sock env = None ->
  (later - now <= 60000 -> 0 < pid -> process_exists pid = true ->
   StateReader.readBiometricState process_exists env' later = Ok st) /\
  (60000 < later - now \/ pid <= 0 \/ process_exists pid = false ->
   StateReader.readBiometricState process_exists env' later
   = Ok (StateReader.getDefaultState later)).
Proof.
  intros Hsim Hsock.
  destruct (simulate_written options now env env' st Hsim)
    as [_ [_ [Ht [_ [Hpid [_ [_ [Hfile Hsock']]]]]]]].
  assert (Hr : StateReader.readBiometricState process_exists env' later
               = Ok (StateReader.validateState process_exists later st)).
  { apply (readBiometricState_file process_exists env' later
             "Socket file does not exist").
    - unfold StateReader.readFromSocket. rewrite Hsock', Hsock. reflexivity.
    - unfold StateReader.readFromFile. rewrite Hfile. reflexivity. }
  rewrite Hr. split.
  - intros Hage Hpos Hex. f_equal. apply validateState_trusted.
    + rewrite Ht. exact Hage.
    + apply isDaemonAlive_true. rewrite Hpid. split; assumption.
  - intros Hbad. f_equal. destruct Hbad as [Hstale | Hdead].
    + apply validateState_stale. rewrite Ht. exact Hstale.
    + apply validateState_dead. rewrite Hpid.
      destruct Hdead as [Hle | Hex]; [ now apply isDaemonAlive_nonpositive | ].
      destruct (StateReader.isDaemonAlive process_exists pid) eqn:E;
        [ | reflexivity ].
      apply isDaemonAlive_true in E. destruct E as [_ E]. congruence.
Qed.

End SimulateMore.

Lemma simulate_writes_valid_record_witness :
  (((0 <= stress_index simulatedRecord)%Qc /\
    (stress_index simulatedRecord <= 1)%Qc) /\
   In (flow_state simulatedRecord) Simulate.validStates)
  /\
  exists name,
    Simulate.given (Simulate.preset inheritedPreset) = Some name /\
    Simulate.lookup name Simulate.PRESETS = None /\
    objectPrototype name = true.
Proof.
  split.
  - destruct (proj1 (simulate_writes_valid_record parseSample 4242
                       Simulate.asciiToUpperCase objectPrototype
                       stressAndFlow 1700000000000 noSignal)
                simulatedRecord afterSimulate eq_refl)
      as [Hrange [Hflow _]].
    split; assumption.
  - destruct (Simulate.simulate parseSample 4242 Simulate.asciiToUpperCase
                objectPrototype inheritedPreset 1700000000000 noSignal)
      as [m | m | st env' | o w'] eqn:E;
      try (vm_compute in E; discriminate E).
    destruct (proj2 (simulate_writes_valid_record parseSample 4242
                       Simulate.asciiToUpperCase objectPrototype
                       inheritedPreset 1700000000000 noSignal) o w' E)
      as [Hname _].
    exact Hname.
Defined.

Lemma simulate_rejects_bad_options_witness :
  Simulate.simulate parseSample 4242 Simulate.asciiToUpperCase objectPrototype
    unknownPreset 1700000000000 noSignal
  = Simulate.Exit1 "Unknown preset: panic"
  /\
  Simulate.simulate parseSample 4242 Simulate.asciiToUpperCase objectPrototype
    badStress 1700000000000 noSignal
  = Simulate.Exit1 "Stress must be a number between 0.0 and 1.0"
  /\
  Simulate.simulate parseSample 4242 Simulate.asciiToUpperCase objectPrototype
    badFlow 1700000000000 noSignal
  = Simulate.Exit1 "Invalid flow state: sleepy".
Proof.
  split; [ | split ].
  - apply (proj1 (simulate_rejects_bad_options parseSample 4242
                    Simulate.asciiToUpperCase objectPrototype unknownPreset
                    1700000000000 noSignal) "panic"); reflexivity.
  - apply (proj1 (proj2 (simulate_rejects_bad_options parseSample 4242
                           Simulate.asciiToUpperCase objectPrototype
                           badStress 1700000000000 noSignal)) "abc").
    + left. reflexivity.
    + reflexivity.
    + left. reflexivity.
  - apply (proj2 (proj2 (simulate_rejects_bad_options parseSample 4242
                           Simulate.asciiToUpperCase objectPrototype
                           badFlow 1700000000000 noSignal)) "sleepy").
    + left. reflexivity.
    + left. reflexivity.
    + reflexivity.
    + reflexivity.
Defined.

Lemma simulated_record_needs_running_command_witness :
  StateReader.readBiometricState (onlyProcess 4242) afterSimulate 1700000030000
  = Ok simulatedRecord
  /\
  StateReader.readBiometricState (onlyProcess 1) afterSimulate 1700000030000
  = Ok (StateReader.getDefaultState 1700000030000).
Proof.
  split.
  - apply (proj1 (simulated_record_needs_running_command parseSample 4242
                    Simulate.asciiToUpperCase objectPrototype
                    (onlyProcess 4242) stressAndFlow 1700000000000
                    1700000030000 noSignal afterSimulate simulatedRecord
                    eq_refl eq_refl)).
    + lia.
    + lia.
    + reflexivity.
  - apply (proj2 (simulated_record_needs_running_command parseSample 4242
                    Simulate.asciiToUpperCase objectPrototype
                    (onlyProcess 1) stressAndFlow 1700000000000
                    1700000030000 noSignal afterSimulate simulatedRecord
                    eq_refl eq_refl)).
    right. right. reflexivity.
Defined.

(** ** The status endpoint *)

(** X16. The status endpoint does not validate: after the ingestion
    endpoint accepted a sample, the status endpoint reports the stress
    index, flow state and source of that record with its age, and a daemon
    that is not running, at any later time. *)
Theorem status_reports_mobile_record
    (data : Mobile.MobileBiometricData) (now later : Z) (env env' : Env)
    (si : num) (fs src : string) :
  Api.handleBiometricsPost data now env = (Api.Updated si fs src, env') ->
  StatusEndpoint.handleStatusGet later env'
  = StatusEndpoint.StatusOk false (Some si) (Some fs) (Some src)
      (Some (later - timestamp (Api.buildState data now))).
Proof.
  intro H. apply handleBiometricsPost_updated in H.
  destruct H as [Hfile [_ [-> [-> ->]]]].
  unfold StatusEndpoint.handleStatusGet, Api.readCurrentState.
  rewrite Hfile. reflexivity.
Qed.

Lemma status_reports_mobile_record_witness :
  StatusEndpoint.handleStatusGet 1700000090000 afterMobile
  = StatusEndpoint.StatusOk false
      (Some (stress_index (Api.buildState hrv90 1700000000000)))
      (Some (flow_state (Api.buildState hrv90 1700000000000)))
      (Some (source (Api.buildState hrv90 1700000000000)))
      (Some (1700000090000
             - timestamp (Api.buildState hrv90 1700000000000))).
Proof.
  apply (status_reports_mobile_record hrv90 1700000000000 1700000090000
           noSignal afterMobile).
  apply handleBiometricsPost_accepts; reflexivity.
Defined.

(** X17. The status endpoint answers degraded exactly when the state file
    exists and is not JSON or holds null.  Without a state file it reports
    stress 0, UNKNOWN, source none, no running daemon and the epoch time as
    age; with an object in the file it reports the properties of that
    object, and a running daemon exactly when the producer id of the object
    is a positive number, whether or not that process exists and however
    old the object is. *)
Theorem status_endpoint_answers (now : Z) (w : Untyped.World) :
  (Untyped.file w = Some Untyped.NotJson \/
   Untyped.file w = Some (Untyped.Json Untyped.PNull)
   <-> exists e, UntypedStatus.handleStatusGet now w
                 = StatusEndpoint.Degraded e) /\
  (Untyped.file w = None ->
   UntypedStatus.handleStatusGet now w
   = StatusEndpoint.StatusOk false (Some (dec 0)) (Some "UNKNOWN")
       (Some "none") (Some now)) /\
  (forall o, Untyped.file w = Some (Untyped.Json (Untyped.PObject o)) ->
   UntypedStatus.handleStatusGet now w
   = StatusEndpoint.StatusOk
       (match Api.o_daemon_pid o with
        | Some pid => pid >? 0
        | None => false
        end)
       (Api.o_stress_index o) (Api.o_flow_state o) (Api.o_source o)
       (match Api.o_timestamp o with
        | Some t => Some (now - t)
        | None => None
        end)).
Proof.
  unfold UntypedStatus.handleStatusGet, Untyped.readCurrentState.
  destruct (Untyped.file w) as [[[ | o] | ] | ].
  - split; [ split; [ intros _; eexists; reflexivity
                    | intros _; right; reflexivity ] | ].
    split; [ discriminate | intros o H; discriminate H ].
  - split; [ split; [ intros [H | H]; discriminate H
                    | intros [e H]; discriminate H ] | ].
    split; [ discriminate | ].
    intros o' H. injection H as <-.
    destruct (Api.o_timestamp o); reflexivity.
  - split; [ split; [ intros _; eexists; reflexivity
                    | intros _; left; reflexivity ] | ].
    split; [ discriminate | intros o H; discriminate H ].
  - split; [ split; [ intros [H | H]; discriminate H
                    | intros [e H]; discriminate H ] | ].
    split; [ | intros o H; discriminate H ].
    intros _. cbn. rewrite Z.sub_0_r. reflexivity.
Qed.

Lemma status_endpoint_answers_witness :
  UntypedStatus.handleStatusGet 1700000090000 (Untyped.ofEnv noSignal)
  = StatusEndpoint.StatusOk false (Some (dec 0)) (Some "UNKNOWN")
      (Some "none") (Some 1700000090000)
  /\
  UntypedStatus.handleStatusGet 1700000090000 pidOnlyFile
  = StatusEndpoint.StatusOk true None None None None
  /\
  exists e, UntypedStatus.handleStatusGet 1700000090000 nullWorld
            = StatusEndpoint.Degraded e.
Proof.
  split; [ | split ].
  - apply (proj1 (proj2 (status_endpoint_answers 1700000090000
                           (Untyped.ofEnv noSignal)))).
    reflexivity.
  - apply (proj2 (proj2 (status_endpoint_answers 1700000090000 pidOnlyFile))
             pidOnly).
    reflexivity.
  - apply (proj1 (proj1 (status_endpoint_answers 1700000090000 nullWorld))).
    right. reflexivity.
Defined.

(** ** The status command's reader *)

Section ReadStateFacts.

Variable process_exists : Z -> bool.

(** X18. Whenever the reader of the status command obtains a record, the
    plugin's fetch, on the same outcome of the connection, answers with the
    validation of that same record. *)
Theorem readState_agrees_with_fetch
    (env : Env) (now : Z) (s : BiometricState) :
  Daemon.readState env = Ok s ->
  StateReader.readBiometricState process_exists env now
  = Ok (StateReader.validateState process_exists now s).
Proof.
  unfold Daemon.readState, StateReader.readBiometricState,
    StateReader.readFromSocket, StateReader.readFromFile.
  destruct (state_sock env) as [[[s1 | ] | m | ] | ];
    destruct (state_file env) as [[s2 | ] | ];
    intro H; try discriminate H; injection H as <-; reflexivity.
Qed.

(** X19. The reader of the status command falls back to the file only on
    a connection error: when the connection times out or delivers text
    that is not JSON it fails, even if the state file holds a record, while
    the plugin's fetch uses that record. *)
Theorem readState_no_fallback_on_timeout
    (env : Env) (now : Z) (s : BiometricState) :
  state_sock env = Some TimedOut \/ state_sock env = Some (Ended Unparsable) ->
  state_file env = Some (Parsed s) ->
  (exists m, Daemon.readState env = Throw m) /\
  StateReader.readBiometricState process_exists env now
  = Ok (StateReader.validateState process_exists now s).
Proof.
  intros Hsock Hfile.
  unfold Daemon.readState, StateReader.readBiometricState,
    StateReader.readFromSocket, StateReader.readFromFile.
  rewrite Hfile.
  destruct Hsock as [-> | ->]; split;
    try (eexists; reflexivity); reflexivity.
Qed.

End ReadStateFacts.

Lemma readState_agrees_with_fetch_witness :
  StateReader.readBiometricState (onlyProcess 4242) liveKeystroke 1700000001000
  = Ok (StateReader.validateState (onlyProcess 4242) 1700000001000
          (keystrokeRecord 1700000000000 4242)).
Proof.
  apply (readState_agrees_with_fetch (onlyProcess 4242) liveKeystroke
           1700000001000 (keystrokeRecord 1700000000000 4242)).
  reflexivity.
Defined.

Lemma readState_no_fallback_on_timeout_witness :
  (exists m, Daemon.readState timeoutWithFile = Throw m) /\
  StateReader.readBiometricState (onlyProcess 4242) timeoutWithFile
    1700000001000
  = Ok (StateReader.validateState (onlyProcess 4242) 1700000001000
          (keystrokeRecord 1700000000000 4242)).
Proof.
  apply (readState_no_fallback_on_timeout (onlyProcess 4242) timeoutWithFile
           1700000001000 (keystrokeRecord 1700000000000 4242)).
  - left. reflexivity.
  - reflexivity.
Defined.

(** ** [stopDaemon] *)

Lemma poll_sleeps_bound (answers : nat -> bool) (attempts k : nat) :
  (fst (Daemon.poll answers attempts k) <= attempts)%nat.
Proof.
  revert k. induction attempts as [ | a IH]; intro k; simpl; [ lia | ].
  destruct (answers k); simpl; [ | lia ].
  specialize (IH (S k)). destruct (Daemon.poll answers a (S k)) as [n k'].
  simpl in *. lia.
Qed.

(** The process answers every probe of the loop. *)
Lemma poll_exhausted (answers : nat -> bool) (attempts k : nat) :
  (forall j, (k <= j < k + attempts)%nat -> answers j = true) ->
  Daemon.poll answers attempts k = (attempts, (k + attempts)%nat).
Proof.
  revert k. induction attempts as [ | a IH]; intros k H; simpl.
  - f_equal. lia.
  - rewrite (H k) by lia. rewrite (IH (S k)) by (intros j Hj; apply H; lia).
    f_equal. lia.
Qed.

(** The process answers [n] probes and not the next one. *)
Lemma poll_stopped (answers : nat -> bool) (attempts k n : nat) :
  (n < attempts)%nat ->
  (forall j, (k <= j < k + n)%nat -> answers j = true) ->
  answers (k + n)%nat = false ->
  Daemon.poll answers attempts k = (n, S (k + n)).
Proof.
  revert k n. induction attempts as [ | a IH]; intros k n Hn Htrue Hfalse;
    [ lia | ].
  simpl. destruct n as [ | n].
  - rewrite Nat.add_0_r in Hfalse. rewrite Hfalse. f_equal. lia.
  - rewrite (Htrue k) by lia.
    rewrite (IH (S k) n); [ f_equal; lia | lia | | ].
    + intros j Hj. apply Htrue. lia.
    + replace (S k + n)%nat with (k + S n)%nat by lia. exact Hfalse.
Qed.

(** X20. [stopDaemon] waits at most ten times 200 ms, sends SIGKILL only
    after a delivered SIGTERM, sends no signal when there is no PID file or
    the file holds no number, and leaves no PID file in any case. *)
Theorem stopDaemon_bounded
    (pid_file : option Daemon.pid_text) (fate : Daemon.Fate) :
  let report := Daemon.stopDaemon pid_file fate in
  (Daemon.sleeps report <= 10)%nat /\
  (Daemon.sent report = [] \/
   Daemon.sent report = [Daemon.SIGTERM] \/
   Daemon.sent report = [Daemon.SIGTERM; Daemon.SIGKILL]) /\
  (pid_file = None \/ pid_file = Some Daemon.NotANumber ->
   Daemon.sent report = [] /\ Daemon.sleeps report = 0%nat) /\
  Daemon.pid_file_after report = None.
Proof.
  cbv zeta. unfold Daemon.stopDaemon.
  destruct pid_file as [[p | ] | ].
  - destruct (Daemon.term_delivered fate).
    + pose proof (poll_sleeps_bound (Daemon.answers fate) 10 0) as Hb.
      destruct (Daemon.poll (Daemon.answers fate) 10 0) as [n k].
      cbn [fst] in Hb.
      destruct (Daemon.answers fate k);
        [ destruct (Daemon.kill_delivered fate) | ];
        cbn;
        (split; [ lia | split; [ tauto | split; [ | reflexivity ] ] ]);
        intros [E | E]; discriminate E.
    + cbn. split; [ lia | split; [ tauto | split; [ | reflexivity ] ] ].
      intros [E | E]; discriminate E.
  - cbn. split; [ lia | split; [ tauto | split; [ | reflexivity ] ] ].
    intros _. split; reflexivity.
  - cbn. split; [ lia | split; [ tauto | split; [ | reflexivity ] ] ].
    intros _. split; reflexivity.
Qed.

(** X21. When SIGTERM is delivered to a process that answers exactly the
    first [n] probes: for [n <= 10] the command sleeps [n] times, sends no
    SIGKILL and reports a clean stop; for [n > 10] it sleeps ten times and
    then sends SIGKILL. *)
Theorem stopDaemon_escalation
    (p : Z) (fate : Daemon.Fate) (n : nat) :
  Daemon.term_delivered fate = true ->
  (forall k, Daemon.answers fate k = true <-> (k < n)%nat) ->
  ((n <= 10)%nat ->
   Daemon.stopDaemon (Some (Daemon.Pid p)) fate
   = {| Daemon.sent := [Daemon.SIGTERM];
        Daemon.sleeps := n;
        Daemon.printed := [Daemon.Stopping; Daemon.StoppedCleanly];
        Daemon.pid_file_after := None |}) /\
  ((10 < n)%nat ->
   Daemon.stopDaemon (Some (Daemon.Pid p)) fate
   = if Daemon.kill_delivered fate
     then {| Daemon.sent := [Daemon.SIGTERM; Daemon.SIGKILL];
             Daemon.sleeps := 10;
             Daemon.printed := [Daemon.Stopping; Daemon.ForceKilled];
             Daemon.pid_file_after := None |}
     else {| Daemon.sent := [Daemon.SIGTERM];
             Daemon.sleeps := 10;
             Daemon.printed := [Daemon.Stopping; Daemon.NotFound];
             Daemon.pid_file_after := None |}).
Proof.
  intros Hterm Hans.
  assert (Hfalse : forall k, (n <= k)%nat -> Daemon.answers fate k = false).
  { intros k Hk. destruct (Daemon.answers fate k) eqn:E; [ | reflexivity ].
    apply Hans in E. lia. }
  unfold Daemon.stopDaemon. rewrite Hterm.
  split; intro Hn.
  - destruct (Nat.eq_dec n 10) as [-> | Hne].
    + rewrite (poll_exhausted (Daemon.answers fate) 10 0)
        by (intros j Hj; apply Hans; lia).
      cbn [Nat.add]. rewrite (Hfalse 10%nat) by lia. reflexivity.
    + rewrite (poll_stopped (Daemon.answers fate) 10 0 n);
        [ | lia | intros j Hj; apply Hans; lia | apply Hfalse; lia ].
      rewrite (Hfalse (S (0 + n))) by lia. reflexivity.
  - rewrite (poll_exhausted (Daemon.answers fate) 10 0)
      by (intros j Hj; apply Hans; lia).
    cbn [Nat.add]. rewrite (proj2 (Hans 10%nat)) by lia.
    destruct (Daemon.kill_delivered fate); reflexivity.
Qed.

Lemma stopDaemon_escalation_witness :
  Daemon.stopDaemon (Some (Daemon.Pid 4242)) (exitsAfter 3)
  = {| Daemon.sent := [Daemon.SIGTERM];
       Daemon.sleeps := 3;
       Daemon.printed := [Daemon.Stopping; Daemon.StoppedCleanly];
       Daemon.pid_file_after := None |}
  /\
  Daemon.stopDaemon (Some (Daemon.Pid 4242)) (exitsAfter 12)
  = {| Daemon.sent := [Daemon.SIGTERM; Daemon.SIGKILL];
       Daemon.sleeps := 10;
       Daemon.printed := [Daemon.Stopping; Daemon.ForceKilled];
       Daemon.pid_file_after := None |}.
Proof.
  split.
  - apply (proj1 (stopDaemon_escalation 4242 (exitsAfter 3) 3 eq_refl
                    (fun k => Nat.ltb_lt k 3))).
    lia.
  - apply (proj2 (stopDaemon_escalation 4242 (exitsAfter 12) 12 eq_refl
                    (fun k => Nat.ltb_lt k 12))).
    lia.
Defined.

(** ** [formatStress] *)

Lemma floor_nonneg (q : Q) : 0 <= Qfloor q <-> (0 <= q)%Q.
Proof.
  split; intro H.
  - apply Qle_trans with (inject_Z (Qfloor q)); [ | apply Qfloor_le ].
    change 0%Q with (inject_Z 0). rewrite <- Zle_Qle. exact H.
  - rewrite <- (Qfloor_Z 0). apply Qfloor_resp_le. exact H.
Qed.

Lemma floor_le (q : Q) (n : Z) : Qfloor q <= n <-> (q < inject_Z (n + 1))%Q.
Proof.
  split; intro H.
  - apply Qlt_le_trans with (inject_Z (Qfloor q + 1)); [ apply Qlt_floor | ].
    rewrite <- Zle_Qle. lia.
  - destruct (Z_le_gt_dec (Qfloor q) n) as [Hle | Hgt]; [ exact Hle | ].
    exfalso. apply (Qlt_irrefl q).
    apply Qlt_le_trans with (inject_Z (n + 1)); [ exact H | ].
    apply Qle_trans with (inject_Z (Qfloor q)); [ | apply Qfloor_le ].
    rewrite <- Zle_Qle. lia.
Qed.

(** [Math.round(stress * 10)] on the underlying fraction. *)
Lemma Math_round_tenths (stress : num) :
  Math_round (stress * dec 10)%Qc = Qfloor (stress * 10 + 0.5)%Q.
Proof.
  unfold Math_round, Qcplus, Qcmult, dec. cbn [this Q2Qc].
  rewrite !Qred_correct. reflexivity.
Qed.

Lemma tenths_nonneg (stress : num) :
  0 <= Math_round (stress * dec 10)%Qc <-> (dec (-0.05) <= stress)%Qc.
Proof.
  rewrite Math_round_tenths, floor_nonneg.
  unfold Qcle, dec. cbn [this Q2Qc]. rewrite Qred_correct.
  split; intro H; lra.
Qed.

Lemma tenths_at_most_ten (stress : num) :
  Math_round (stress * dec 10)%Qc <= 10 <-> (stress < dec 1.05)%Qc.
Proof.
  rewrite Math_round_tenths, floor_le.
  unfold Qclt, dec. cbn [this Q2Qc]. rewrite Qred_correct.
  change (inject_Z (10 + 1)) with 11%Q.
  split; intro H; lra.
Qed.

Section FormatFacts.

Variable toFixed0 : num -> string.
Variable intToString : Z -> string.

Local Abbreviation formatStress := (Daemon.formatStress toFixed0 intToString).

Lemma formatStress_cases (stress : num) :
  let k := Math_round (stress * dec 10)%Qc in
  ((dec (-0.05) <= stress)%Qc /\ (stress < dec 1.05)%Qc ->
   0 <= k <= 10 /\
   formatStress stress
   = Ok ((Daemon.copies "█" (Z.to_nat k) ++
          Daemon.copies "░" (Z.to_nat (10 - k))) ++
         " " ++ toFixed0 (stress * dec 100)%Qc ++ "% (" ++
         Daemon.stressLabel stress ++ ")")) /\
  ((stress < dec (-0.05))%Qc ->
   formatStress stress = Throw ("Invalid count value: " ++ intToString k)) /\
  ((dec 1.05 <= stress)%Qc ->
   formatStress stress
   = Throw ("Invalid count value: " ++ intToString (10 - k))).
Proof.
  cbv zeta. unfold Daemon.formatStress, Daemon.repeat.
  pose proof (tenths_nonneg stress) as H0.
  pose proof (tenths_at_most_ten stress) as H1.
  set (k := Math_round (stress * dec 10)%Qc) in *.
  split; [ | split ].
  - intros [Hlo Hhi]. apply H0 in Hlo. apply H1 in Hhi.
    split; [ lia | ].
    destruct (Z.ltb_spec k 0); [ lia | ]. cbn [bind].
    destruct (Z.ltb_spec (10 - k) 0); [ lia | ]. cbn [bind].
    reflexivity.
  - intro Hlt. destruct (Z.ltb_spec k 0) as [ | Hge]; [ reflexivity | ].
    exfalso. apply H0 in Hge. exact (Qclt_not_le _ _ Hlt Hge).
  - intro Hge.
    assert (Hk : 10 < k).
    { destruct (Z_le_gt_dec k 10) as [Hle | Hgt]; [ | lia ].
      exfalso. apply H1 in Hle. exact (Qclt_not_le _ _ Hle Hge). }
    destruct (Z.ltb_spec k 0); [ lia | ]. cbn [bind].
    destruct (Z.ltb_spec (10 - k) 0); [ reflexivity | lia ].
Qed.

(** X22. [formatStress] returns a line exactly for a stress index from
    -0.05 up to, but not including, 1.05, and throws the RangeError of
    [repeat] for any other.  The line starts with a bar of ten cells of
    which [Math.round(stress * 10)] are filled. *)
Theorem formatStress_display_range (stress : num) :
  let k := Math_round (stress * dec 10)%Qc in
  ((dec (-0.05) <= stress)%Qc /\ (stress < dec 1.05)%Qc ->
   0 <= k <= 10 /\
   formatStress stress
   = Ok ((Daemon.copies "█" (Z.to_nat k) ++
          Daemon.copies "░" (Z.to_nat (10 - k))) ++
         " " ++ toFixed0 (stress * dec 100)%Qc ++ "% (" ++
         Daemon.stressLabel stress ++ ")")) /\
  ((stress < dec (-0.05))%Qc ->
   formatStress stress = Throw ("Invalid count value: " ++ intToString k)) /\
  ((dec 1.05 <= stress)%Qc ->
   formatStress stress
   = Throw ("Invalid count value: " ++ intToString (10 - k))).
Proof. exact (formatStress_cases stress). Qed.

Variable process_exists : Z -> bool.

Local Abbreviation getDaemonStatus :=
  (Daemon.getDaemonStatus toFixed0 intToString process_exists).

(** X23. The status command reports the daemon as not running, and reads
    no state, exactly when there is no PID file, the file holds no number
    or no process has that id.  When the daemon runs and a record is read,
    the state block shows that record with its age, however old it is,
    provided its stress index is in the display range; for a stress index
    of 1.05 or more the block is the error of [formatStress] instead. *)
Theorem status_command_report
    (pid_file : option Daemon.pid_text) (env : Env) (now : Z) :
  (getDaemonStatus pid_file env now = Daemon.NotRunning
   <-> (pid_file = None \/ pid_file = Some Daemon.NotANumber \/
        exists p, pid_file = Some (Daemon.Pid p) /\ process_exists p = false)) /\
  (forall p s,
      pid_file = Some (Daemon.Pid p) -> process_exists p = true ->
      Daemon.readState env = Ok s ->
      ((dec (-0.05) <= stress_index s)%Qc /\ (stress_index s < dec 1.05)%Qc ->
       exists line,
         formatStress (stress_index s) = Ok line /\
         getDaemonStatus pid_file env now
         = Daemon.Running (Daemon.Pid p)
             (match state_sock env with Some _ => true | None => false end)
             (Daemon.StateLines line s (now - timestamp s))) /\
      ((dec 1.05 <= stress_index s)%Qc ->
       exists message,
         getDaemonStatus pid_file env now
         = Daemon.Running (Daemon.Pid p)
             (match state_sock env with Some _ => true | None => false end)
             (Daemon.Unable message))).
Proof.
  split.
  - unfold Daemon.getDaemonStatus, Daemon.isDaemonRunning,
      Daemon.isProcessRunning.
    destruct pid_file as [[p | ] | ].
    + destruct (process_exists p) eqn:E; split.
      * discriminate.
      * intros [H | [H | [q [H Hq]]]]; try discriminate H.
        injection H as <-. congruence.
      * intros _. right. right. exists p. split; [ reflexivity | exact E ].
      * reflexivity.
    + split; [ intros _; right; left; reflexivity | reflexivity ].
    + split; [ intros _; left; reflexivity | reflexivity ].
  - intros p s -> Hp Hs.
    unfold Daemon.getDaemonStatus, Daemon.isDaemonRunning,
      Daemon.isProcessRunning.
    rewrite Hp, Hs. cbn [bind].
    destruct (formatStress_cases (stress_index s)) as [Hin [_ Hhigh]].
    split.
    + intro Hrange. destruct (Hin Hrange) as [_ Hline].
      eexists. split; [ exact Hline | ].
      rewrite Hline. reflexivity.
    + intro Hge. rewrite (Hhigh Hge). cbn [bind]. eexists. reflexivity.
Qed.

End FormatFacts.

Lemma formatStress_display_range_witness :
  Daemon.formatStress percentSample countSample (dec 0.8)
  = Ok "████████░░ 80% (Critical)"
  /\
  Daemon.formatStress percentSample countSample (dec 1.5)
  = Throw "Invalid count value: -5".
Proof.
  split.
  - destruct (proj1 (formatStress_display_range percentSample countSample
                       (dec 0.8))) as [_ H].
    + split; [ apply leb_le | apply ltb_lt ]; vm_compute; reflexivity.
    + rewrite H. vm_compute. reflexivity.
  - rewrite (proj2 (proj2 (formatStress_display_range percentSample
                             countSample (dec 1.5)))).
    + vm_compute. reflexivity.
    + apply leb_le. vm_compute. reflexivity.
Defined.

Lemma status_command_report_witness :
  Daemon.getDaemonStatus percentSample countSample (onlyProcess 4242)
    (Some (Daemon.Pid 4242)) liveKeystroke 1700000090000
  = Daemon.Running (Daemon.Pid 4242) false
      (Daemon.StateLines "████████░░ 80% (Critical)"
         (keystrokeRecord 1700000000000 4242) 90000)
  /\
  Daemon.getDaemonStatus percentSample countSample (onlyProcess 4242)
    (Some (Daemon.Pid 4242)) liveRaw 1700000001000
  = Daemon.Running (Daemon.Pid 4242) false
      (Daemon.Unable "Invalid count value: -5").
Proof.
  split.
  - destruct (proj2 (status_command_report percentSample countSample
                       (onlyProcess 4242) (Some (Daemon.Pid 4242))
                       liveKeystroke 1700000090000)
                4242 (keystrokeRecord 1700000000000 4242)
                eq_refl eq_refl eq_refl) as [Hin _].
    destruct Hin as [line [Hline Hreport]].
    + split; [ apply leb_le | apply ltb_lt ]; vm_compute; reflexivity.
    + rewrite Hreport. vm_compute in Hline. injection Hline as <-.
      reflexivity.
  - destruct (proj2 (status_command_report percentSample countSample
                       (onlyProcess 4242) (Some (Daemon.Pid 4242))
                       liveRaw 1700000001000)
                4242 (rawRecord 1700000000000 4242)
                eq_refl eq_refl eq_refl) as [_ Hhigh].
    destruct Hhigh as [message Hreport].
    + apply leb_le. vm_compute. reflexivity.
    + vm_compute. reflexivity.
Defined.

(** ** Further instances *)

Lemma ingestion_answers_witness :
  Request.handleBiometricsPost (Some zeroOnly) 1700000000000 noSignal
    Request.PushConnect
  = (Api.Status400 "Missing required field: hrv or heart_rate",
     noSignal, None)
  /\
  state_file
    (snd (fst (Request.handleBiometricsPost (Some hrv90) 1700000000000
                 staleSocketFreshFile Request.PushConnect)))
  = Some (Parsed (Api.buildState hrv90 1700000000000))
  /\
  snd (Request.handleBiometricsPost (Some hrv90) 1700000000000
         staleSocketFreshFile Request.PushConnect)
  = Some (Api.buildState hrv90 1700000000000).
Proof.
  assert (Hpresent :
            ~ ((Mobile.hrv hrv90 = None \/ Mobile.hrv hrv90 = Some 0%Qc) /\
               (Mobile.heart_rate hrv90 = None \/
                Mobile.heart_rate hrv90 = Some 0%Qc))).
  { intros [[H | H] _]; [ discriminate H | ].
    apply (f_equal (option_map this)) in H. vm_compute in H.
    discriminate H. }
  split.
  - apply (proj1 (proj2 (ingestion_answers 1700000000000 noSignal
                           Request.PushConnect) zeroOnly)).
    split; [ right; reflexivity | left; reflexivity ].
  - destruct (proj2 (proj2 (proj2 (ingestion_answers 1700000000000
                                     staleSocketFreshFile Request.PushConnect)
                                  hrv90)) Hpresent eq_refl)
      as [_ [Hfile [Hsent _]]].
    split; [ exact Hfile | ].
    apply (proj2 Hsent). split; [ discriminate | reflexivity ].
Defined.

Lemma note_overwritten_or_extended_witness :
  Plugin.biometricNote
    (Plugin.derive printSample (stressed (dec 0.9)) hostContext)
  = Plugin.biometricNote
      (Plugin.derive printSample (stressed (dec 0.9)) Plugin.fresh)
  /\
  Plugin.biometricNote
    (Plugin.derive printSample (deepFlow (dec 0.9)) hostContext)
  = Some (Plugin.noteOrEmpty hostContext ++ Plugin.deepFlowNote).
Proof.
  split.
  - apply (proj1 (note_overwritten_or_extended printSample
                    (stressed (dec 0.9)) hostContext Plugin.fresh)).
    vm_compute. reflexivity.
  - apply (proj2 (note_overwritten_or_extended printSample
                    (deepFlow (dec 0.9)) hostContext Plugin.fresh));
      vm_compute; reflexivity.
Defined.

Lemma stopDaemon_bounded_witness :
  Daemon.sent (Daemon.stopDaemon (Some Daemon.NotANumber) (exitsAfter 3)) = []
  /\
  Daemon.sleeps (Daemon.stopDaemon (Some Daemon.NotANumber) (exitsAfter 3))
  = 0%nat.
Proof.
  apply (proj1 (proj2 (proj2 (stopDaemon_bounded (Some Daemon.NotANumber)
                                (exitsAfter 3))))).
  right. reflexivity.
Defined.
